(** * Grounded prompt and response gate of the loan-product chat

    A shallow embedding of [src/lib/ai.ts] (prompt builder, simulated
    reply, LLM transport, response gate) and of the [POST] handler of
    [src/app/api/ai/ask/route.ts], with the properties stated about them.

    JavaScript strings are sequences of UTF-16 code units; they are
    modelled as lists of code units ([N]). *)

From Stdlib Require Import List NArith ZArith String Ascii Bool Lia Arith.
Import ListNotations.

Local Open Scope N_scope.
Set Warnings "-register-all".

(* ================================================================== *)
(** * Strings *)
(* ================================================================== *)

Module JsString.

Abbreviation jsstring := (list N) (only parsing).

(** An ASCII literal of the source as a list of code units. *)
Definition lit (s : string) : jsstring :=
  List.map N_of_ascii (list_ascii_of_string s).

Definition nl : N := 10.
Definition dquote : N := 34.

Fixpoint eqs (a b : jsstring) : bool :=
  match a, b with
  | [], [] => true
  | x :: a', y :: b' => (x =? y) && eqs a' b'
  | _, _ => false
  end.

(** [String.prototype.startsWith]. *)
Fixpoint startsWith (pre s : jsstring) : bool :=
  match pre, s with
  | [], _ => true
  | x :: pre', y :: s' => (x =? y) && startsWith pre' s'
  | _ :: _, [] => false
  end.

(** [String.prototype.includes]: [needle] starts at some position. *)
Fixpoint includes (needle s : jsstring) : bool :=
  startsWith needle s ||
  match s with
  | [] => false
  | _ :: s' => includes needle s'
  end.

(** WhiteSpace and LineTerminator code points, as [trim] strips them. *)
Definition isWhiteSpace (c : N) : bool :=
  ((9 <=? c) && (c <=? 13)) || (c =? 32) || (c =? 160) || (c =? 5760)
  || ((8192 <=? c) && (c <=? 8202)) || (c =? 8232) || (c =? 8233)
  || (c =? 8239) || (c =? 8287) || (c =? 12288) || (c =? 65279).

Fixpoint trimStart (s : jsstring) : jsstring :=
  match s with
  | [] => []
  | c :: s' => if isWhiteSpace c then trimStart s' else s
  end.

Fixpoint trimEnd (s : jsstring) : jsstring :=
  match s with
  | [] => []
  | c :: s' =>
      match trimEnd s' with
      | [] => if isWhiteSpace c then [] else [c]
      | t => c :: t
      end
  end.

(** [String.prototype.trim]. *)
Definition trim (s : jsstring) : jsstring := trimEnd (trimStart s).

(** [Array.prototype.join(sep)]. *)
Fixpoint join (sep : jsstring) (parts : list jsstring) : jsstring :=
  match parts with
  | [] => []
  | [p] => p
  | p :: rest => p ++ sep ++ join sep rest
  end.

(** A template literal that spans several source lines is the join of
    its source lines with a newline. *)
Definition unlines (parts : list jsstring) : jsstring := join [nl] parts.

(** The text split at newlines ([s.split('\n')]). *)
Fixpoint lines (s : jsstring) : list jsstring :=
  match s with
  | [] => [[]]
  | c :: s' =>
      if c =? nl then [] :: lines s'
      else match lines s' with
           | l :: ls => (c :: l) :: ls
           | [] => [[c]]
           end
  end.

Definition noNewline (s : jsstring) : bool :=
  forallb (fun c => negb (c =? nl)) s.

(** ASCII range of [toUpperCase]; applied in the source only to the role
    tags ['user'] and ['assistant']. *)
Definition upperAscii (c : N) : N :=
  if (97 <=? c) && (c <=? 122) then c - 32 else c.

Definition toUpperCaseAscii (s : jsstring) : jsstring := List.map upperAscii s.

(** [String.prototype.toLowerCase] as far as the ASCII needles searched
    for afterwards can observe it: A-Z map to a-z, the two code points
    outside ASCII whose lower case contains an ASCII letter (U+212A KELVIN
    SIGN, U+0130 LATIN CAPITAL LETTER I WITH DOT ABOVE) map as Unicode
    says, and every other code unit, whose lower case stays outside ASCII,
    is kept. *)
Definition lowerUnit (c : N) : jsstring :=
  if (65 <=? c) && (c <=? 90) then [c + 32]
  else if c =? 8490 then [107]
  else if c =? 304 then [105; 775]
  else [c].

Definition toLowerCase (s : jsstring) : jsstring := flat_map lowerUnit s.

(** Decimal digits of a natural number, as [Number::toString] prints an
    integer such as the array index [i + 1]. *)
Fixpoint digitsFrom (fuel : nat) (n : N) (acc : jsstring) : jsstring :=
  match fuel with
  | O => acc
  | S fuel' =>
      let acc' := (48 + n mod 10) :: acc in
      if n <? 10 then acc' else digitsFrom fuel' (n / 10) acc'
  end.

Definition decimalN (n : N) : jsstring := digitsFrom (S (N.size_nat n)) n [].

Definition decimalNat (n : nat) : jsstring := decimalN (N.of_nat n).

Definition isDigit (c : N) : bool := (48 <=? c) && (c <=? 57).

End JsString.
Import JsString.

(* ================================================================== *)
(** * Regular expressions of the response gate *)
(* ================================================================== *)

Module Regex.

(** The gate's patterns are sequences of literal characters and [\b]
    assertions under the [i] flag, without the [u] flag. *)
Inductive atom : Type :=
| WordBoundary
| Char (c : N).

Definition pattern := list atom.

(** [\w] without the [u] flag: [A-Za-z0-9_]. *)
Definition isWordChar (c : N) : bool :=
  ((48 <=? c) && (c <=? 57)) || ((65 <=? c) && (c <=? 90))
  || ((97 <=? c) && (c <=? 122)) || (c =? 95).

Definition isWordAt (c : option N) : bool :=
  match c with
  | Some c => isWordChar c
  | None => false
  end.

(** Canonicalize of the [i] flag without [u]: a-z are compared as A-Z. A
    code unit outside ASCII never canonicalizes into ASCII, so against the
    ASCII characters of the patterns it compares like itself. *)
Definition canonicalize (c : N) : N :=
  if (97 <=? c) && (c <=? 122) then c - 32 else c.

Definition sameChar (c d : N) : bool := canonicalize c =? canonicalize d.

(** Match [pat] at the current position; [prev] is the code unit just
    before it, [s] the rest of the input. *)
Fixpoint matchHere (pat : pattern) (prev : option N) (s : jsstring) : bool :=
  match pat with
  | [] => true
  | WordBoundary :: pat' =>
      xorb (isWordAt prev) (isWordAt (hd_error s)) && matchHere pat' prev s
  | Char c :: pat' =>
      match s with
      | [] => false
      | d :: s' => sameChar c d && matchHere pat' (Some d) s'
      end
  end.

(** Try every start position, left to right. *)
Fixpoint searchFrom (pat : pattern) (prev : option N) (s : jsstring) : bool :=
  matchHere pat prev s ||
  match s with
  | [] => false
  | c :: s' => searchFrom pat (Some c) s'
  end.

(** [RegExp.prototype.test] of a pattern without the [g] flag. *)
Definition test (pat : pattern) (s : jsstring) : bool := searchFrom pat None s.

(** [/\bphrase\b/i] *)
Definition bounded (phrase : string) : pattern :=
  WordBoundary :: List.map Char (lit phrase) ++ [WordBoundary].

End Regex.

(* ================================================================== *)
(** * Response gate: [validateAIResponse] *)
(* ================================================================== *)

Record Validation : Type := {
  valid : bool;
  reason : option jsstring
}.

Definition denylist : list string :=
  [ "guaranteed approval"; "100% approval";
    "no credit check"; "instant approval" ]%string.

Definition suspiciousPatterns : list Regex.pattern :=
  List.map Regex.bounded denylist.

Definition suspiciousReason : jsstring :=
  lit "Response contains suspicious claims not in product data".

Fixpoint firstSuspicious (pats : list Regex.pattern) (response : jsstring)
  : Validation :=
  match pats with
  | [] => {| valid := true; reason := None |}
  | pattern :: rest =>
      if Regex.test pattern response
      then {| valid := false; reason := Some suspiciousReason |}
      else firstSuspicious rest response
  end.

Definition validateAIResponse (response : jsstring) : Validation :=
  firstSuspicious suspiciousPatterns response.

(* ================================================================== *)
(** * Numbers *)
(* ================================================================== *)

(** The operations of the JavaScript engine on [number] values that the
    code relies on.  The code neither computes nor rounds: it prints
    numbers, compares them with literals and tests them for truthiness. *)
Class JsNumber : Type := {
  number : Type;
  (** [Number::toString], as a template literal applies it *)
  numToString : number -> jsstring;
  (** [n.toLocaleString('en-IN')]; [None] when the call throws *)
  toLocaleStringEnIN : number -> option jsstring;
  (** [Number.isNaN] *)
  numIsNaN : number -> bool;
  (** ToBoolean: false for [0], [-0] and [NaN] *)
  numTruthy : number -> bool;
  (** [a <= b] and [a < b] *)
  numLe : number -> number -> bool;
  numLt : number -> number -> bool;
  (** [Math.floor(a / b)] *)
  numFloorDiv : number -> number -> number;
  (** the literals [9.5], [2] and [12] *)
  num9_5 : number;
  num2 : number;
  num12 : number
}.

(** A value that may be [null] or [undefined] at run time. *)
Inductive Nullable (A : Type) : Type :=
| Undefined
| Null
| Value (a : A).
Arguments Undefined {A}.
Arguments Null {A}.
Arguments Value {A} a.

(* ================================================================== *)
(** * Data model ([src/types/index.ts]) *)
(* ================================================================== *)

Inductive LoanType : Type :=
| personal | education | vehicle | home | credit_line | debt_consolidation.

Definition loanTypeText (t : LoanType) : jsstring :=
  match t with
  | personal => lit "personal"
  | education => lit "education"
  | vehicle => lit "vehicle"
  | home => lit "home"
  | credit_line => lit "credit_line"
  | debt_consolidation => lit "debt_consolidation"
  end.

Inductive ChatRole : Type := user | assistant.

Definition roleText (r : ChatRole) : jsstring :=
  match r with
  | user => lit "user"
  | assistant => lit "assistant"
  end.

Record ProductFaq : Type := { q : jsstring; a : jsstring }.

(** A turn of the optional history: [{ role, content }]. *)
Record Turn : Type := { role : ChatRole; content : jsstring }.

Section Model.
Context {N_ : JsNumber}.

(** [Product]: the optional members are [None] when undefined.  The
    prompt builder reads [min_income] through a formatter that accepts
    [null] and [undefined] as well. The members [terms], [matchScore],
    [created_at] and [updated_at] are never read by the code modelled here. *)
Record Product : Type := {
  id : jsstring;
  name : jsstring;
  bank : jsstring;
  type : LoanType;
  rate_apr : number;
  min_income : Nullable number;
  min_credit_score : number;
  tenure_min_months : number;
  tenure_max_months : number;
  processing_fee_pct : option number;
  prepayment_allowed : option bool;
  disbursal_speed : option jsstring;
  docs_level : option jsstring;
  summary : option jsstring;
  faq : option (list ProductFaq)
}.

(** Truthiness of an optional string: defined and not empty. *)
Definition truthyString (s : option jsstring) : bool :=
  match s with
  | Some (_ :: _) => true
  | _ => false
  end.


(** The rupee sign U+20B9. *)
Definition rupee : N := 8377.

Definition formatCurrencyINR (amount : Nullable number) : jsstring :=
  match amount with
  | Null | Undefined => lit "Not specified"
  | Value amount =>
      if numIsNaN amount then lit "Not specified"
      else match toLocaleStringEnIN amount with
           | Some grouped => rupee :: grouped
           | None => rupee :: numToString amount
           end
  end.

(* ------------------------------------------------------------------ *)
(** ** [buildGroundedPrompt] *)

Definition processingFeeLine (p : Product) : jsstring :=
  match processing_fee_pct p with
  | Some fee =>
      if numTruthy fee
      then lit "- Processing Fee: " ++ numToString fee ++ lit "%"
      else []
  | None => []
  end.

Definition prepaymentLine (p : Product) : jsstring :=
  match prepayment_allowed p with
  | Some allowed =>
      lit "- Prepayment Penalty: " ++ (if allowed then lit "Yes" else lit "No")
  | None => []
  end.

Definition optionalTextLine (label : string) (v : option jsstring) : jsstring :=
  match v with
  | Some (c :: s) => lit label ++ c :: s
  | _ => []
  end.

Definition disbursalLine (p : Product) : jsstring :=
  optionalTextLine "- Disbursal Speed: " (disbursal_speed p).

Definition docsLine (p : Product) : jsstring :=
  optionalTextLine "- Documentation Level: " (docs_level p).

Definition summaryLine (p : Product) : jsstring :=
  optionalTextLine "- Summary: " (summary p).

(** One element of [product.faq.map((faq, i) => ...)]; [i] is the index. *)
Definition faqEntry (i : nat) (f : ProductFaq) : jsstring :=
  unlines
    [ [];
      lit "Q" ++ decimalNat (i + 1) ++ lit ": " ++ q f;
      lit "A" ++ decimalNat (i + 1) ++ lit ": " ++ a f;
      [] ].

Fixpoint mapi {A B : Type} (f : nat -> A -> B) (i : nat) (l : list A) : list B :=
  match l with
  | [] => []
  | x :: l' => f i x :: mapi f (S i) l'
  end.

Definition faqEntries (faqs : list ProductFaq) : jsstring :=
  join [] (mapi faqEntry 0 faqs).

Definition faqBlock (p : Product) : jsstring :=
  match faq p with
  | Some (f :: fs) =>
      unlines [ []; lit "FREQUENTLY ASKED QUESTIONS:"; faqEntries (f :: fs) ]
  | _ => []
  end.

(** The template literal of [productContext], before [.trim()]. *)
Definition productContextRaw (p : Product) : jsstring :=
  unlines
    [ [];
      lit "PRODUCT INFORMATION:";
      lit "- Product Name: " ++ name p;
      lit "- Bank: " ++ bank p;
      lit "- Loan Type: " ++ loanTypeText (type p);
      lit "- Interest Rate (APR): " ++ numToString (rate_apr p) ++ lit "%";
      lit "- Minimum Income Required: " ++ formatCurrencyINR (min_income p)
        ++ lit " per month";
      lit "- Minimum Credit Score: " ++ numToString (min_credit_score p);
      lit "- Tenure Range: " ++ numToString (tenure_min_months p) ++ lit " to "
        ++ numToString (tenure_max_months p) ++ lit " months";
      processingFeeLine p;
      prepaymentLine p;
      disbursalLine p;
      docsLine p;
      summaryLine p;
      [];
      faqBlock p;
      [] ].

Definition productContext (p : Product) : jsstring := trim (productContextRaw p).

Definition turnLine (msg : Turn) : jsstring :=
  toUpperCaseAscii (roleText (role msg)) ++ lit ": " ++ content msg.

Definition historyContext (history : list Turn) : jsstring :=
  match history with
  | [] => []
  | _ :: _ =>
      unlines
        [ [];
          lit "PREVIOUS CONVERSATION:";
          join [nl] (List.map turnLine history);
          [] ]
  end.

Definition introLine (p : Product) : jsstring :=
  lit "You are a helpful loan advisor assistant. You are helping a customer understand the "
    ++ dquote :: name p ++ dquote :: lit " loan product from " ++ bank p ++ lit ".".

Definition rule1 : jsstring :=
  lit "1. Answer ONLY using the product information provided above".

Definition rule2 (p : Product) : jsstring :=
  lit "2. When referencing specific data, cite the field name (e.g., "
    ++ dquote :: lit "The APR is " ++ numToString (rate_apr p)
    ++ lit "% as stated in our product details" ++ dquote :: lit ")".

Definition rule3 : jsstring :=
  lit "3. If the user asks about information NOT in the product data, respond with: "
    ++ dquote :: lit "I don't have that specific information in our product database. However, I can help you with [list available topics] or connect you with our support team for detailed assistance."
    ++ [dquote].

Definition rule4 : jsstring := lit "4. Be conversational but accurate".

Definition rule5 : jsstring :=
  lit "5. If you're unsure, acknowledge it rather than guessing".

Definition questionLine (userMessage : jsstring) : jsstring :=
  lit "USER QUESTION: " ++ userMessage.

Definition closingLine : jsstring :=
  lit "Provide a helpful, accurate response based ONLY on the information above:".

(** The source lines of the [systemPrompt] template literal. *)
Definition promptParts (p : Product) (userMessage : jsstring)
  (history : list Turn) : list jsstring :=
  [ introLine p;
    [];
    lit "CRITICAL RULES:";
    rule1;
    rule2 p;
    rule3;
    rule4;
    rule5;
    [];
    productContext p;
    [];
    historyContext history;
    [];
    questionLine userMessage;
    [];
    closingLine ].

Definition buildGroundedPrompt (p : Product) (userMessage : jsstring)
  (history : list Turn) : jsstring :=
  unlines (promptParts p userMessage history).

End Model.

Section Simulation.
Context {N_ : JsNumber}.

(* ------------------------------------------------------------------ *)
(** ** [simulateAIResponse] *)

Definition mentions (q : jsstring) (words : list string) : bool :=
  existsb (fun w => includes (lit w) q) words.

Definition simulateAIResponse (product : Product) (userMessage : jsstring)
  : jsstring :=
  let q := toLowerCase userMessage in
  if mentions q ["apr"; "interest"; "rate"]%string then
    lit "The " ++ name product
      ++ lit " has an annual percentage rate (APR) of "
      ++ numToString (rate_apr product) ++ lit "%. "
      ++ (if numLe (rate_apr product) num9_5
          then lit "This is considered a competitive low rate in the current market."
          else lit "This rate is standard for this type of loan.")
  else if mentions q ["eligible"; "qualify"; "requirement"]%string then
    lit "To qualify for the " ++ name product ++ lit ", you need:"
      ++ nl :: lit "- Minimum credit score: "
      ++ numToString (min_credit_score product)
      ++ nl :: lit "- Minimum monthly income: "
      ++ formatCurrencyINR (min_income product)
      ++ nl :: lit "- The loan tenure ranges from "
      ++ numToString (tenure_min_months product) ++ lit " to "
      ++ numToString (tenure_max_months product) ++ lit " months."
  else if mentions q ["prepayment"; "penalty"; "early"]%string then
    match prepayment_allowed product with
    | Some false =>
        lit "Great news! The " ++ name product
          ++ lit " does NOT have any prepayment penalties. You can pay off your loan early without any extra charges, which can save you money on interest."
    | _ =>
        lit "The " ++ name product
          ++ lit " allows prepayment. I'd recommend checking with "
          ++ bank product
          ++ lit " directly about any applicable prepayment charges or conditions."
    end
  else if mentions q ["disbursal"; "fast"; "quick"; "how long"]%string then
    match disbursal_speed product with
    | Some speed =>
        if eqs speed (lit "fast") then
          lit "The " ++ name product
            ++ lit " offers fast disbursal, typically within 24-48 hours after your application is approved. This is great if you need funds urgently."
        else
          lit "The " ++ name product
            ++ lit " typically disburses funds within 3-5 business days after approval. The exact timeline may vary based on documentation verification."
    | None =>
        lit "The " ++ name product
          ++ lit " typically disburses funds within 3-5 business days after approval. The exact timeline may vary based on documentation verification."
    end
  else if mentions q ["document"; "docs"; "paperwork"]%string then
    let docsInfo :=
      match docs_level product with
      | Some (c :: s) =>
          lit "The documentation requirement level is " ++ c :: s ++ lit "."
      | _ => []
      end in
    lit "For the " ++ name product
      ++ lit ", you'll need standard documentation including:"
      ++ nl :: lit "- Identity proof (Aadhaar, PAN card)"
      ++ nl :: lit "- Income proof (salary slips, bank statements)"
      ++ nl :: lit "- Address proof"
      ++ nl :: docsInfo
  else if mentions q ["fee"; "charge"; "cost"]%string then
    match processing_fee_pct product with
    | Some fee =>
        if numTruthy fee then
          lit "The " ++ name product ++ lit " has a processing fee of "
            ++ numToString fee ++ lit "% of the loan amount. "
            ++ (if numLt fee num2
                then lit "This is a relatively low processing fee compared to the market average."
                else [])
        else
          lit "I don't have specific information about processing fees in our product database. Please contact "
            ++ bank product
            ++ lit " directly for detailed fee structure information."
    | None =>
        lit "I don't have specific information about processing fees in our product database. Please contact "
          ++ bank product
          ++ lit " directly for detailed fee structure information."
    end
  else if mentions q ["tenure"; "term"; "duration"]%string then
    lit "The " ++ name product
      ++ lit " offers flexible tenure options ranging from "
      ++ numToString (tenure_min_months product) ++ lit " months ("
      ++ numToString (numFloorDiv (tenure_min_months product) num12)
      ++ lit " years) to "
      ++ numToString (tenure_max_months product) ++ lit " months ("
      ++ numToString (numFloorDiv (tenure_max_months product) num12)
      ++ lit " years). You can choose a tenure that fits your repayment capacity."
  else
    lit "I don't have specific information about that in our product database. However, I can help you with details about the "
      ++ name product ++ lit "'s:"
      ++ nl :: lit "- Interest rate (" ++ numToString (rate_apr product)
      ++ lit "% APR)"
      ++ nl :: lit "- Eligibility criteria (credit score: "
      ++ numToString (min_credit_score product) ++ lit ", income: "
      ++ formatCurrencyINR (min_income product) ++ lit ")"
      ++ nl :: lit "- Tenure options ("
      ++ numToString (tenure_min_months product) ++ lit "-"
      ++ numToString (tenure_max_months product) ++ lit " months)"
      ++ nl :: lit "- Prepayment terms"
      ++ (if truthyString (disbursal_speed product)
          then nl :: lit "- Disbursal timeline" else [])
      ++ nl :: nl :: lit "What would you like to know about these aspects?".

End Simulation.

(* ================================================================== *)
(** * JSON values, exceptions and the effects of the server code *)
(* ================================================================== *)

(** Parsed JSON.  A number keeps its source text; an object is the list of
    its members. *)
Inductive Json : Type :=
| JNull
| JBool (b : bool)
| JNumber (text : jsstring)
| JString (s : jsstring)
| JArray (items : list Json)
| JObject (members : list (jsstring * Json)).

Fixpoint lookup (key : jsstring) (members : list (jsstring * Json))
  : option Json :=
  match members with
  | [] => None
  | (k, v) :: rest => if eqs k key then Some v else lookup key rest
  end.

(** [v?.key] for the keys read by the code; [None] is [undefined]. *)
Definition prop (key : string) (v : option Json) : option Json :=
  match v with
  | Some (JObject members) => lookup (lit key) members
  | _ => None
  end.

(** [v?.[0]] *)
Definition index0 (v : option Json) : option Json :=
  match v with
  | Some (JArray (x :: _)) => Some x
  | Some (JObject members) => lookup (lit "0") members
  | Some (JString (c :: _)) => Some (JString [c])
  | _ => None
  end.

(** [!v || typeof v !== 'string'] fails: a non-empty string. *)
Definition nonEmptyString (v : option Json) : option jsstring :=
  match v with
  | Some (JString (c :: s)) => Some (c :: s)
  | _ => None
  end.

(** A thrown value: whether it is an [Error] instance, its [name] and
    its [message]. *)
Record Exn : Type := {
  isError : bool;
  exnName : jsstring;
  exnMessage : jsstring
}.

Definition newError (message : jsstring) : Exn :=
  {| isError := true; exnName := lit "Error"; exnMessage := message |}.

Record HttpRequest : Type := {
  url : jsstring;
  method : jsstring;
  headers : list (jsstring * jsstring);
  requestBody : Json
}.

(** What [fetch] resolves to: [ok], [status], the body text, and the
    result of [response.json()] ([None] when it rejects). *)
Record FetchResponse : Type := {
  ok : bool;
  status : nat;
  text : jsstring;
  json : option Json
}.

Record ChatMessage : Type := {
  product_id : jsstring;
  user_id : jsstring;
  cm_role : ChatRole;
  cm_content : jsstring;
  created_at : N
}.

(** What the server code changes around itself: rows written by
    [saveChatMessage], lines given to [console.error], requests sent with
    [fetch], and the clock read by [new Date()]. *)
Record State : Type := {
  saved : list ChatMessage;
  console : list jsstring;
  fetched : list HttpRequest;
  clock : N
}.

Inductive Result (A : Type) : Type :=
| Ok (a : A)
| Throw (e : Exn).
Arguments Ok {A} a.
Arguments Throw {A} e.

(** Computations that read and change the state and may throw. *)
Definition M (A : Type) : Type := State -> Result A * State.

Definition ret {A : Type} (a : A) : M A := fun st => (Ok a, st).

Definition throw {A : Type} (e : Exn) : M A := fun st => (Throw e, st).

Definition bind {A B : Type} (m : M A) (k : A -> M B) : M B :=
  fun st =>
    match m st with
    | (Ok a, st') => k a st'
    | (Throw e, st') => (Throw e, st')
    end.

Definition tryCatch {A : Type} (m : M A) (handler : Exn -> M A) : M A :=
  fun st =>
    match m st with
    | (Ok a, st') => (Ok a, st')
    | (Throw e, st') => handler e st'
    end.

Notation "x <- m ;; k" := (bind m (fun x => k))
  (at level 61, m at next level, right associativity).
Notation "m ;;; k" := (bind m (fun _ => k))
  (at level 61, right associativity).

Definition consoleError (line : jsstring) : M unit :=
  fun st =>
    (Ok tt, {| saved := saved st; console := console st ++ [line];
               fetched := fetched st; clock := clock st |}).

Definition newDate : M N :=
  fun st =>
    (Ok (clock st), {| saved := saved st; console := console st;
                       fetched := fetched st; clock := clock st + 1 |}).

(** The network: what a request is answered with, or the exception that
    [fetch] rejects with. *)
Definition Network : Type := HttpRequest -> Result FetchResponse.

Definition fetch (net : Network) (req : HttpRequest) : M FetchResponse :=
  fun st =>
    (net req, {| saved := saved st; console := console st;
                 fetched := fetched st ++ [req]; clock := clock st |}).

(* ================================================================== *)
(** * LLM transport: [callLLMAPI] *)
(* ================================================================== *)

(** [process.env]: a variable is [None] when unset. *)
Record ProcessEnv : Type := {
  OPENAI_API_KEY : option jsstring;
  GEMINI_API_KEY : option jsstring
}.

(** Truthiness of an environment variable: set and not empty. *)
Definition configured (key : option jsstring) : bool :=
  match key with
  | Some (_ :: _) => true
  | _ => false
  end.

Definition keyText (key : option jsstring) : jsstring :=
  match key with
  | Some k => k
  | None => lit "undefined"
  end.

Definition openaiRequest (openaiKey prompt : jsstring) : HttpRequest :=
  {| url := lit "https://api.openai.com/v1/chat/completions";
     method := lit "POST";
     headers :=
       [ (lit "Content-Type", lit "application/json");
         (lit "Authorization", lit "Bearer " ++ openaiKey) ];
     requestBody :=
       JObject
         [ (lit "model", JString (lit "gpt-4o-mini"));
           (lit "messages",
            JArray [ JObject [ (lit "role", JString (lit "system"));
                               (lit "content", JString prompt) ] ]);
           (lit "temperature", JNumber (lit "0.4"));
           (lit "max_tokens", JNumber (lit "500")) ] |}.

Definition geminiRequest (geminiKey prompt : jsstring) : HttpRequest :=
  {| url := lit "https://generativelanguage.googleapis.com/v1beta/models/gemini-1.5-flash:generateContent";
     method := lit "POST";
     headers :=
       [ (lit "Content-Type", lit "application/json");
         (lit "x-goog-api-key", geminiKey) ];
     requestBody :=
       JObject
         [ (lit "contents",
            JArray [ JObject
                       [ (lit "role", JString (lit "user"));
                         (lit "parts",
                          JArray [ JObject [ (lit "text", JString prompt) ] ]) ] ]);
           (lit "generationConfig",
            JObject [ (lit "temperature", JNumber (lit "0.4"));
                      (lit "maxOutputTokens", JNumber (lit "500")) ]) ] |}.

Definition notConfigured : Exn :=
  newError (lit "LLM API not configured. Set OPENAI_API_KEY or GEMINI_API_KEY.").

Definition jsonSyntaxError : Exn :=
  {| isError := true; exnName := lit "SyntaxError";
     exnMessage := lit "Unexpected token in JSON" |}.

(** [await response.json()] *)
Definition responseJson (response : FetchResponse) : M Json :=
  match json response with
  | Some data => ret data
  | None => throw jsonSyntaxError
  end.

Definition callLLMAPI (env : ProcessEnv) (net : Network) (prompt : jsstring)
  : M jsstring :=
  let openaiKey := OPENAI_API_KEY env in
  let geminiKey := GEMINI_API_KEY env in
  if negb (configured openaiKey) && negb (configured geminiKey) then
    throw notConfigured
  else if configured openaiKey then
    response <- fetch net (openaiRequest (keyText openaiKey) prompt) ;;
    if negb (ok response) then
      throw (newError (lit "OpenAI API error: " ++ decimalNat (status response)
                         ++ lit " " ++ text response))
    else
      data <- responseJson response ;;
      match nonEmptyString
              (prop "content" (prop "message" (index0 (prop "choices" (Some data)))))
      with
      | Some messageContent => ret messageContent
      | None =>
          throw (newError (lit "OpenAI API returned an unexpected response shape."))
      end
  else
    response <- fetch net (geminiRequest (keyText geminiKey) prompt) ;;
    if negb (ok response) then
      throw (newError (lit "Gemini API error: " ++ decimalNat (status response)
                         ++ lit " " ++ text response))
    else
      data <- responseJson response ;;
      match nonEmptyString
              (prop "text"
                 (index0 (prop "parts"
                    (prop "content" (index0 (prop "candidates" (Some data)))))))
      with
      | Some text => ret text
      | None =>
          throw (newError (lit "Gemini API returned an unexpected response shape."))
      end.

(* ================================================================== *)
(** * The [/api/ai/ask] handler ([src/app/api/ai/ask/route.ts]) *)
(* ================================================================== *)

Module AIAskRequest.
Record t : Type := {
  productId : jsstring;
  message : jsstring;
  history : option (list Turn)
}.
End AIAskRequest.

Module NextResponse.
(** [NextResponse.json(body, { status })]; the status is 200 when not given. *)
Record t : Type := {
  status : nat;
  success : bool;
  message : option jsstring;
  error : option jsstring;
  details : option jsstring
}.
End NextResponse.

Definition parseRole (j : option Json) : option ChatRole :=
  match j with
  | Some (JString s) =>
      if eqs s (lit "user") then Some user
      else if eqs s (lit "assistant") then Some assistant
      else None
  | _ => None
  end.

Definition parseTurn (j : Json) : option Turn :=
  match j with
  | JObject _ =>
      match parseRole (prop "role" (Some j)), prop "content" (Some j) with
      | Some r, Some (JString c) => Some {| role := r; content := c |}
      | _, _ => None
      end
  | _ => None
  end.

Fixpoint parseTurns (items : list Json) : option (list Turn) :=
  match items with
  | [] => Some []
  | j :: rest =>
      match parseTurn j, parseTurns rest with
      | Some t, Some ts => Some (t :: ts)
      | _, _ => None
      end
  end.

(** [AIAskSchema.parse(body)]; [None] when it throws a ZodError.
    [isUuid] is the library's test behind [z.string().uuid()]. *)
Definition AIAskSchema_parse (isUuid : jsstring -> bool) (body : Json)
  : option AIAskRequest.t :=
  match body with
  | JObject _ =>
      match prop "productId" (Some body), prop "message" (Some body) with
      | Some (JString pid), Some (JString msg) =>
          if isUuid pid && (1 <=? List.length msg)%nat && (List.length msg <=? 500)%nat
          then
            match prop "history" (Some body) with
            | None =>
                Some {| AIAskRequest.productId := pid;
                        AIAskRequest.message := msg;
                        AIAskRequest.history := None |}
            | Some (JArray items) =>
                match parseTurns items with
                | Some ts =>
                    Some {| AIAskRequest.productId := pid;
                            AIAskRequest.message := msg;
                            AIAskRequest.history := Some ts |}
                | None => None
                end
            | Some _ => None
            end
          else None
      | _, _ => None
      end
  | _ => None
  end.

Section Handler.
Context {N_ : JsNumber}.

(** The collaborators of the handler: the request, the validation
    library, the session, and the database layer. *)
Record Collaborators : Type := {
  (** [await request.json()] *)
  requestJson : Result Json;
  isUuid : jsstring -> bool;
  (** the message of the ZodError thrown for a rejected body *)
  zodMessage : Json -> jsstring;
  (** [session?.user?.id] after [await getServerSession(authOptions)] *)
  getServerSession : Result (option jsstring);
  getProductById : jsstring -> Result (option Product);
  (** [saveChatMessage] on the rows already stored *)
  saveChatMessage : ChatMessage -> list ChatMessage -> Result (list ChatMessage)
}.

Definition liftResult {A : Type} (r : Result A) : M A := fun st => (r, st).

Definition save (c : Collaborators) (msg : ChatMessage) : M unit :=
  fun st =>
    match saveChatMessage c msg (saved st) with
    | Ok rows =>
        (Ok tt, {| saved := rows; console := console st;
                   fetched := fetched st; clock := clock st |})
    | Throw e => (Throw e, st)
    end.

Definition zodError (message : jsstring) : Exn :=
  {| isError := true; exnName := lit "ZodError"; exnMessage := message |}.

Definition parseBody (c : Collaborators) (body : Json) : M AIAskRequest.t :=
  match AIAskSchema_parse (isUuid c) body with
  | Some validatedData => ret validatedData
  | None => throw (zodError (zodMessage c body))
  end.

Definition jsonResponse (status : nat) (success : bool)
  (message error details : option jsstring) : NextResponse.t :=
  {| NextResponse.status := status; NextResponse.success := success;
     NextResponse.message := message; NextResponse.error := error;
     NextResponse.details := details |}.

Definition safeFallback : jsstring :=
  lit "I apologize, but I couldn't generate a reliable answer. Please rephrase your question or ask about specific product details like interest rate, eligibility criteria, or tenure options.".

Definition reasonText (r : option jsstring) : jsstring :=
  match r with
  | Some s => s
  | None => lit "undefined"
  end.

(** The body of the [try] block. *)
Definition handle (c : Collaborators) : M NextResponse.t :=
  body <- liftResult (requestJson c) ;;
  validatedData <- parseBody c body ;;
  let productId := AIAskRequest.productId validatedData in
  let message := AIAskRequest.message validatedData in
  userId <- liftResult (getServerSession c) ;;
  match userId with
  | Some (u :: serId) =>
      let userId := u :: serId in
      product <- liftResult (getProductById c productId) ;;
      match product with
      | None =>
          ret (jsonResponse 404 false None (Some (lit "Product not found")) None)
      | Some product =>
          let aiResponse := simulateAIResponse product message in
          let validation := validateAIResponse aiResponse in
          if negb (valid validation) then
            consoleError (lit "AI response validation failed: "
                            ++ reasonText (reason validation)) ;;;
            ret (jsonResponse 200 true (Some safeFallback) None None)
          else
            tryCatch
              (t1 <- newDate ;;
               save c {| product_id := productId; user_id := userId;
                         cm_role := user; cm_content := message;
                         created_at := t1 |} ;;;
               t2 <- newDate ;;
               save c {| product_id := productId; user_id := userId;
                         cm_role := assistant; cm_content := aiResponse;
                         created_at := t2 |})
              (fun dbError =>
                 consoleError (lit "Failed to save chat messages: "
                                 ++ exnMessage dbError)) ;;;
            ret (jsonResponse 200 true (Some aiResponse) None None)
      end
  | _ => ret (jsonResponse 401 false None (Some (lit "Unauthorized")) None)
  end.

(** [POST]: the [try] block and its [catch]. *)
Definition POST (c : Collaborators) (st : State) : NextResponse.t * State :=
  match handle c st with
  | (Ok response, st') => (response, st')
  | (Throw error, st') =>
      let st'' :=
        {| saved := saved st';
           console := console st'
                        ++ [lit "Error in POST /api/ai/ask: " ++ exnMessage error];
           fetched := fetched st'; clock := clock st' |} in
      if isError error && eqs (exnName error) (lit "ZodError") then
        (jsonResponse 400 false None (Some (lit "Invalid request format"))
           (Some (exnMessage error)), st'')
      else
        (jsonResponse 500 false None (Some (lit "Failed to process AI request"))
           None, st'')
  end.

End Handler.

(* ================================================================== *)
(** * A concrete number model *)
(* ================================================================== *)

(** Numbers with at most two decimals, and NaN: enough for every column
    of the product table within the ranges the validators allow.  A value
    is held in hundredths.  Used to run the code on concrete products. *)
Module Dec2.

Inductive t : Type :=
| NaN
| Hundredths (z : Z).

Definition fraction (f : N) : jsstring :=
  if f =? 0 then []
  else 46 :: (if f mod 10 =? 0 then [48 + f / 10]
              else [48 + f / 10; 48 + f mod 10]).

Definition render (integer : N -> jsstring) (z : Z) : jsstring :=
  let m := Z.abs_N z in
  (if (z <? 0)%Z then [45] else []) ++ integer (m / 100) ++ fraction (m mod 100).

Definition toString (x : t) : jsstring :=
  match x with
  | NaN => lit "NaN"
  | Hundredths z => render decimalN z
  end.

Fixpoint pairsRev (l : jsstring) : jsstring :=
  match l with
  | [] => []
  | [x] => [44; x]
  | x :: y :: l' => 44 :: x :: y :: pairsRev l'
  end.

(** Indian digit grouping: the last three digits, then groups of two. *)
Definition groupEnIN (digits : jsstring) : jsstring :=
  match rev digits with
  | d0 :: d1 :: d2 :: rest => rev (d0 :: d1 :: d2 :: pairsRev rest)
  | _ => digits
  end.

Definition toLocaleString (x : t) : option jsstring :=
  match x with
  | NaN => Some (lit "NaN")
  | Hundredths z => Some (render (fun n => groupEnIN (decimalN n)) z)
  end.

Definition isNaN (x : t) : bool :=
  match x with NaN => true | Hundredths _ => false end.

Definition truthy (x : t) : bool :=
  match x with NaN => false | Hundredths z => negb (z =? 0)%Z end.

Definition le (x y : t) : bool :=
  match x, y with
  | Hundredths a, Hundredths b => (a <=? b)%Z
  | _, _ => false
  end.

Definition lt (x y : t) : bool :=
  match x, y with
  | Hundredths a, Hundredths b => (a <? b)%Z
  | _, _ => false
  end.

(** [Math.floor(x / y)]; a zero divisor, which the code never passes,
    gives NaN here. *)
Definition floorDiv (x y : t) : t :=
  match x, y with
  | Hundredths a, Hundredths b =>
      if (b =? 0)%Z then NaN else Hundredths (100 * (a / b))
  | _, _ => NaN
  end.

#[export] Instance ops : JsNumber := {|
  number := t;
  numToString := toString;
  toLocaleStringEnIN := toLocaleString;
  numIsNaN := isNaN;
  numTruthy := truthy;
  numLe := le;
  numLt := lt;
  numFloorDiv := floorDiv;
  num9_5 := Hundredths 950;
  num2 := Hundredths 200;
  num12 := Hundredths 1200
|}.

(** Whole numbers. *)
Definition int (z : Z) : t := Hundredths (100 * z).

End Dec2.

(* ================================================================== *)
(** * Vocabulary of the properties *)
(* ================================================================== *)

(** The code unit just before a position: the last one of [pre], or
    [prev] when [pre] is empty. *)
Definition lastOr (prev : option N) (pre : jsstring) : option N :=
  fold_left (fun _ c => Some c) pre prev.

(** [m] spells [phrase] up to the case of the letters a-z. *)
Definition spells (phrase m : jsstring) : Prop :=
  List.map Regex.canonicalize m = List.map Regex.canonicalize phrase.

(** [phrase] occurs in [text] as a case-insensitive substring. *)
Definition ContainsIgnoringCase (phrase text : jsstring) : Prop :=
  exists pre m post, text = pre ++ m ++ post /\ spells phrase m.

(** [phrase] occurs in [text], case-insensitively, with no letter, digit or
    underscore directly before or after it. *)
Definition ContainsAsWords (phrase text : jsstring) : Prop :=
  exists pre m post,
    text = pre ++ m ++ post /\ spells phrase m
    /\ Regex.isWordAt (lastOr None pre) = false
    /\ Regex.isWordAt (hd_error post) = false.

Definition invalid : Validation :=
  {| valid := false; reason := Some suspiciousReason |}.

Definition accepted : Validation := {| valid := true; reason := None |}.

(** The same collaborators serving another request body. *)
Definition withRequest {N_ : JsNumber} (c : Collaborators) (body : Json)
  : Collaborators :=
  {| requestJson := Ok body;
     isUuid := isUuid c;
     zodMessage := zodMessage c;
     getServerSession := getServerSession c;
     getProductById := getProductById c;
     saveChatMessage := saveChatMessage c |}.

(** A request that gets as far as the reply: the body validates to
    [request], a user is signed in and the product exists. *)
Definition ReachesReply {N_ : JsNumber} (c : Collaborators)
  (request : AIAskRequest.t) (product : Product) : Prop :=
  (exists body, requestJson c = Ok body
                /\ AIAskSchema_parse (isUuid c) body = Some request)
  /\ (exists u serId, getServerSession c = Ok (Some (u :: serId)))
  /\ getProductById c (AIAskRequest.productId request) = Ok (Some product).

(** The reply after the gate: the generated text, or the fallback. *)
Definition finalReply {N_ : JsNumber} (product : Product) (message : jsstring)
  : jsstring :=
  if valid (validateAIResponse (simulateAIResponse product message))
  then simulateAIResponse product message
  else safeFallback.

(* ================================================================== *)
(** * Concrete products and requests *)
(* ================================================================== *)

Module Sample.
Import Dec2.

Definition quickLoan : Product :=
  {| id := lit "3f2b8c1e-5d4a-4f6b-9c7d-1a2b3c4d5e6f";
     name := lit "Quick Personal Loan";
     bank := lit "HDFC Bank";
     type := personal;
     rate_apr := Hundredths 890;
     min_income := Value (int 25000);
     min_credit_score := int 700;
     tenure_min_months := int 12;
     tenure_max_months := int 60;
     processing_fee_pct := Some (Hundredths 150);
     prepayment_allowed := Some true;
     disbursal_speed := Some (lit "fast");
     docs_level := Some (lit "low");
     summary := Some (lit "A quick unsecured loan.");
     faq := Some [ {| q := lit "Is there a fee?"; a := lit "Yes, 1.5%." |};
                   {| q := lit "Can I prepay?"; a := lit "Yes." |} ] |}.

(** The same product with only its required members. *)
Definition bareLoan : Product :=
  {| id := id quickLoan; name := name quickLoan; bank := bank quickLoan;
     type := personal; rate_apr := Hundredths 890;
     min_income := Value (int 25000); min_credit_score := int 700;
     tenure_min_months := int 12; tenure_max_months := int 60;
     processing_fee_pct := None; prepayment_allowed := None;
     disbursal_speed := None; docs_level := None; summary := None;
     faq := None |}.

(** A product whose name is itself a denylisted phrase. *)
Definition boastfulLoan : Product :=
  {| id := id quickLoan; name := lit "Guaranteed Approval"; bank := bank quickLoan;
     type := personal; rate_apr := Hundredths 890;
     min_income := Value (int 25000); min_credit_score := int 700;
     tenure_min_months := int 12; tenure_max_months := int 60;
     processing_fee_pct := None; prepayment_allowed := None;
     disbursal_speed := None; docs_level := None; summary := None;
     faq := None |}.

Definition askRate : Json :=
  JObject [ (lit "productId", JString (id quickLoan));
            (lit "message", JString (lit "What's the interest rate?")) ].

Definition askRateWithHistory : Json :=
  JObject [ (lit "productId", JString (id quickLoan));
            (lit "message", JString (lit "What's the interest rate?"));
            (lit "history",
             JArray [ JObject [ (lit "role", JString (lit "user"));
                                (lit "content", JString (lit "Hello")) ] ]) ].

Definition emptyState : State :=
  {| saved := []; console := []; fetched := []; clock := 0 |}.

Definition dbDown : Exn := newError (lit "connection refused").

(** Collaborators around a stored product; [saving] tells whether the
    database accepts rows. *)
Definition serving (product : Product) (body : Json) (saving : bool)
  : Collaborators :=
  {| requestJson := Ok body;
     isUuid := fun s => (List.length s =? 36)%nat;
     zodMessage := fun _ => lit "invalid";
     getServerSession := Ok (Some (lit "user-1"));
     getProductById := fun _ => Ok (Some product);
     saveChatMessage := fun m rows =>
       if saving then Ok (rows ++ [m]) else Throw dbDown |}.

Definition noKeys : ProcessEnv :=
  {| OPENAI_API_KEY := None; GEMINI_API_KEY := None |}.

Definition bothKeys : ProcessEnv :=
  {| OPENAI_API_KEY := Some (lit "sk-test"); GEMINI_API_KEY := Some (lit "g-test") |}.


Definition offline : Network := fun _ => Throw (newError (lit "fetch failed")).

End Sample.

(** The same collaborators over another [saveChatMessage]. *)
Definition withSave {N_ : JsNumber} (c : Collaborators)
  (saving : ChatMessage -> list ChatMessage -> Result (list ChatMessage))
  : Collaborators :=
  {| requestJson := requestJson c;
     isUuid := isUuid c;
     zodMessage := zodMessage c;
     getServerSession := getServerSession c;
     getProductById := getProductById c;
     saveChatMessage := saving |}.

(** The lines of [s] that satisfy [P]. *)
Definition selectLines (P : jsstring -> bool) (s : jsstring) : list jsstring :=
  filter P (lines s).

(** [c] added to the last line. *)
Fixpoint appendLast (ls : list jsstring) (c : N) : list jsstring :=
  match ls with
  | [] => []
  | [l] => [l ++ [c]]
  | l :: ls' => l :: appendLast ls' c
  end.

(** A test on lines that an empty line fails and that does not look at
    white space at the end of the line. *)
Record LineTest (P : jsstring -> bool) : Prop := {
  test_empty : P [] = false;
  test_trailing : forall l c, isWhiteSpace c = true -> P (l ++ [c]) = P l
}.

(** [dropPrefix pre s]: what follows [pre] at the start of [s]. *)
Fixpoint dropPrefix (pre s : jsstring) : option jsstring :=
  match pre, s with
  | [], _ => Some s
  | x :: pre', y :: s' => if x =? y then dropPrefix pre' s' else None
  | _ :: _, [] => None
  end.

(** [x] occurs somewhere in [s] and [check] holds of what follows it. *)
Fixpoint findAfter (x : jsstring) (check : jsstring -> bool) (s : jsstring)
  : bool :=
  match dropPrefix x s with
  | Some rest => check rest
  | None => false
  end
  || match s with
     | [] => false
     | _ :: s' => findAfter x check s'
     end.

(** The texts [xs] occur in [s] one after the other, in this order and
    without overlap. *)
Fixpoint inOrder (xs : list jsstring) (s : jsstring) : bool :=
  match xs with
  | [] => true
  | x :: xs' => findAfter x (inOrder xs') s
  end.

(** [l] is a whole line inside [t]. *)
Definition HasLine (l t : jsstring) : Prop :=
  exists pre post, t = pre ++ nl :: l ++ nl :: post.

Section PromptVocabulary.
Context {N_ : JsNumber}.

(** The header and the lines of the members every product has. *)
Definition requiredLines (p : Product) : list jsstring :=
  [ lit "PRODUCT INFORMATION:";
    lit "- Product Name: " ++ name p;
    lit "- Bank: " ++ bank p;
    lit "- Loan Type: " ++ loanTypeText (type p);
    lit "- Interest Rate (APR): " ++ numToString (rate_apr p) ++ lit "%";
    lit "- Minimum Income Required: " ++ formatCurrencyINR (min_income p)
      ++ lit " per month";
    lit "- Minimum Credit Score: " ++ numToString (min_credit_score p);
    lit "- Tenure Range: " ++ numToString (tenure_min_months p) ++ lit " to "
      ++ numToString (tenure_max_months p) ++ lit " months" ].

Definition optionalLines (p : Product) : list jsstring :=
  [ processingFeeLine p; prepaymentLine p; disbursalLine p; docsLine p;
    summaryLine p ].

(** Part 1: the listing of the product's members, as it stands in the
    prompt (white space after its last line is trimmed away). *)
Definition listingSection (p : Product) : jsstring :=
  unlines (requiredLines p) ++ trimEnd (nl :: unlines (optionalLines p)).

(** Part 2: the FAQ block, present when there are entries. *)
Definition faqSection (p : Product) : jsstring :=
  match faq p with
  | Some (f :: fs) =>
      lit "FREQUENTLY ASKED QUESTIONS:" ++ trimEnd (nl :: faqEntries (f :: fs))
  | _ => []
  end.

(** Part 4: the five rules under their heading. *)
Definition rulesSection (p : Product) : jsstring :=
  unlines [ lit "CRITICAL RULES:"; rule1; rule2 p; rule3; rule4; rule5 ].

(** The order in which the prompt holds its parts. *)
Definition sectionsInPrompt (p : Product) (userMessage : jsstring)
  (history : list Turn) : list jsstring :=
  [ rulesSection p; listingSection p; faqSection p; historyContext history;
    questionLine userMessage; closingLine ].

(** The order the specification lists them in. *)
Definition sectionsAsListed (p : Product) (userMessage : jsstring)
  (history : list Turn) : list jsstring :=
  [ listingSection p; faqSection p; historyContext history; rulesSection p;
    questionLine userMessage; closingLine ].

(** The template with the product block not yet trimmed. *)
Definition promptBeforeTrim (p : Product) (userMessage : jsstring)
  (history : list Turn) : jsstring :=
  unlines
    [ introLine p; []; lit "CRITICAL RULES:"; rule1; rule2 p; rule3; rule4;
      rule5; []; productContextRaw p; []; historyContext history; [];
      questionLine userMessage; []; closingLine ].

Definition questionText (i : nat) (f : ProductFaq) : jsstring :=
  lit "Q" ++ decimalNat (i + 1) ++ lit ": " ++ q f.

Definition answerText (i : nat) (f : ProductFaq) : jsstring :=
  lit "A" ++ decimalNat (i + 1) ++ lit ": " ++ a f.

Definition entryLines (i : nat) (fs : list ProductFaq) : list jsstring :=
  List.concat (mapi (fun i f => [ []; questionText i f; answerText i f ]) i fs)
    ++ [ [] ].

Definition faqBlockLines (p : Product) : list jsstring :=
  match faq p with
  | Some (f :: fs) =>
      [ []; lit "FREQUENTLY ASKED QUESTIONS:" ] ++ entryLines 0 (f :: fs)
  | _ => [ [] ]
  end.

Definition historyLines (history : list Turn) : list jsstring :=
  match history with
  | [] => [ [] ]
  | _ :: _ =>
      [ []; lit "PREVIOUS CONVERSATION:" ] ++ List.map turnLine history ++ [ [] ]
  end.

(** The source lines of the template once every interpolation is filled
    in: these are the lines of the untrimmed prompt when no interpolated
    text brings a newline of its own. *)
Definition promptLines (p : Product) (userMessage : jsstring)
  (history : list Turn) : list jsstring :=
  [ introLine p; []; lit "CRITICAL RULES:"; rule1; rule2 p; rule3; rule4;
    rule5; [] ]
  ++ ([] :: requiredLines p ++ optionalLines p ++ [ [] ] ++ faqBlockLines p
        ++ [ [] ])
  ++ [ [] ] ++ historyLines history
  ++ [ []; questionLine userMessage; []; closingLine ].

Definition singleLineOption (v : option jsstring) : bool :=
  match v with
  | Some s => noNewline s
  | None => true
  end.

(** No text interpolated into the prompt contains a newline. *)
Definition singleLineFields (p : Product) (userMessage : jsstring)
  (history : list Turn) : bool :=
  noNewline (name p) && noNewline (bank p)
  && noNewline (numToString (rate_apr p))
  && noNewline (formatCurrencyINR (min_income p))
  && noNewline (numToString (min_credit_score p))
  && noNewline (numToString (tenure_min_months p))
  && noNewline (numToString (tenure_max_months p))
  && match processing_fee_pct p with
     | Some fee => noNewline (numToString fee)
     | None => true
     end
  && singleLineOption (disbursal_speed p)
  && singleLineOption (docs_level p)
  && singleLineOption (summary p)
  && match faq p with
     | Some fs => forallb (fun f => noNewline (q f) && noNewline (a f)) fs
     | None => true
     end
  && forallb (fun t => noNewline (content t)) history
  && noNewline userMessage.

End PromptVocabulary.

(** A line that starts with [label]. *)
Definition labelled (label : string) (l : jsstring) : bool :=
  startsWith (lit label) l.


(** How many lines of [t] start with [label]. *)
Definition countLabelled (label : string) (t : jsstring) : nat :=
  List.length (selectLines (labelled label) t).

Section PromptVocabulary2.
Context {N_ : JsNumber}.

(** The minimum-income figure is [null], [undefined] or NaN. *)
Definition incomeMissing (v : Nullable number) : bool :=
  match v with
  | Null | Undefined => true
  | Value n => numIsNaN n
  end.

(** What follows the required lines in the raw product block. *)
Definition contextTail (p : Product) : jsstring :=
  nl :: unlines (optionalLines p ++ [ []; faqBlock p; [] ]).

End PromptVocabulary2.

Module Sample2.
Import Dec2.

(** A product whose minimum income was never filled in. *)
Definition incomelessLoan : Product :=
  {| id := id Sample.quickLoan; name := name Sample.quickLoan;
     bank := bank Sample.quickLoan;
     type := personal; rate_apr := Hundredths 890;
     min_income := Null; min_credit_score := int 700;
     tenure_min_months := int 12; tenure_max_months := int 60;
     processing_fee_pct := None; prepayment_allowed := None;
     disbursal_speed := None; docs_level := None; summary := None;
     faq := None |}.

Definition question : jsstring := lit "What's the interest rate?".

Definition earlier : list Turn :=
  [ {| role := user; content := lit "Hello" |};
    {| role := assistant; content := lit "Hi, how can I help?" |} ].

End Sample2.

(** The text starts with a decimal digit. *)
Definition headDigit (s : jsstring) : bool :=
  match s with
  | d :: _ => isDigit d
  | [] => false
  end.


Module Sample3.
Import Dec2.



End Sample3.

(** The row the handler writes for a turn. *)
Definition turnRow (request : AIAskRequest.t) (userId : jsstring)
  (r : ChatRole) (text : jsstring) (time : N) : ChatMessage :=
  {| product_id := AIAskRequest.productId request; user_id := userId;
     cm_role := r; cm_content := text; created_at := time |}.

Module Sample4.
Import Dec2.

(** Collaborators given by what each of them answers. *)
Definition desk (body : Result Json) (session : Result (option jsstring))
  (found : Result (option Product))
  (saving : ChatMessage -> list ChatMessage -> Result (list ChatMessage))
  : Collaborators :=
  {| requestJson := body;
     isUuid := fun s => (List.length s =? 36)%nat;
     zodMessage := fun _ => lit "invalid";
     getServerSession := session;
     getProductById := fun _ => found;
     saveChatMessage := saving |}.

Definition appending (m : ChatMessage) (rows : list ChatMessage)
  : Result (list ChatMessage) := Ok (rows ++ [m]).

(** A database that stores user turns and fails on assistant turns. *)
Definition failingOnAssistant (m : ChatMessage) (rows : list ChatMessage)
  : Result (list ChatMessage) :=
  match cm_role m with
  | user => Ok (rows ++ [m])
  | assistant => Throw Sample.dbDown
  end.

Definition failing (m : ChatMessage) (rows : list ChatMessage)
  : Result (list ChatMessage) := Throw Sample.dbDown.

Definition emptyMessage : Json :=
  JObject [ (lit "productId", JString (id Sample.quickLoan));
            (lit "message", JString []) ].

Definition signedIn : Result (option jsstring) := Ok (Some (lit "user-1")).

Definition rateRequest : AIAskRequest.t :=
  {| AIAskRequest.productId := id Sample.quickLoan;
     AIAskRequest.message := lit "What's the interest rate?";
     AIAskRequest.history := None |}.

Definition rateReply : jsstring :=
  lit "The Quick Personal Loan has an annual percentage rate (APR) of 8.9%. This is considered a competitive low rate in the current market.".

End Sample4.

(** Two texts that differ at most in the case of the letters a-z. *)
Definition sameUpToCase (r r' : jsstring) : Prop :=
  List.map Regex.canonicalize r = List.map Regex.canonicalize r'.

Module Sample5.

(** A chat-completions answer. *)
Definition openaiAnswer : Json :=
  JObject
    [ (lit "choices",
       JArray [ JObject [ (lit "message",
                           JObject [ (lit "role", JString (lit "assistant"));
                                     (lit "content",
                                      JString (lit "The APR is 8.9%.")) ]) ] ]) ].

(** A network that answers every request with the given status and body. *)
Definition answering (code : nat) (body : option Json) : Network :=
  fun _ =>
    Ok {| ok := (200 <=? code)%nat && (code <=? 299)%nat; status := code;
          text := lit "rate limited"; json := body |}.

Definition afterOneRequest (req : HttpRequest) : State :=
  {| saved := []; console := []; fetched := [req]; clock := 0 |}.

Definition longMessage : Json :=
  JObject [ (lit "productId", JString (id Sample.quickLoan));
            (lit "message", JString (repeat 97 501)) ].

End Sample5.

(** A line of the transcript: it starts with an upper-cased role tag. *)
Definition turnTest (l : jsstring) : bool :=
  labelled "USER:" l || labelled "ASSISTANT:" l.

Module Sample6.

(** A request whose history has a turn with a role outside the schema. *)
Definition withSystemTurn : Json :=
  JObject [ (lit "productId", JString (id Sample.quickLoan));
            (lit "message", JString (lit "What's the interest rate?"));
            (lit "history",
             JArray [ JObject [ (lit "role", JString (lit "system"));
                                (lit "content", JString (lit "Be brief")) ] ]) ].

End Sample6.

Module Sample7.

(** An answer without the [choices] member. *)
Definition errorBody : Json :=
  JObject [ (lit "error", JObject [ (lit "message", JString (lit "overloaded")) ]) ].

End Sample7.

(* ================================================================== *)
(** * The prompt builder on the object store *)
(* ================================================================== *)

(** [buildGroundedPrompt] receives its product and its history by
    reference and runs in a process that has a clock, an environment and
    other objects.  Here it is embedded operation by operation on a store
    of objects, so that what a call reads, allocates and leaves unchanged
    is explicit: property reads are reads of the store,
    [Array.prototype.map] allocates a new array and leaves its receiver as
    it is, [Array.prototype.join] reads an array, and template literals,
    [trim] and [toUpperCase] build new strings. *)

Section Store.
Context {N_ : JsNumber}.

(** What a reference can point to: a product object (with the FAQ array
    it owns), an array of turns, an array of strings. *)
Inductive Obj : Type :=
| ProductObj (p : Product)
| TurnsObj (turns : list Turn)
| StringsObj (items : list jsstring).

(** The process: its objects by address, the state other server code
    changes, and [process.env]. *)
Record World : Type := {
  objects : list Obj;
  ambient : State;
  environment : ProcessEnv
}.

Definition objectAt (w : World) (l : nat) : option Obj := nth_error (objects w) l.

(** Computations on the store; [None] is a TypeError. *)
Definition H (A : Type) : Type := World -> option (A * World).

Definition retH {A : Type} (a : A) : H A := fun w => Some (a, w).

Definition bindH {A B : Type} (m : H A) (k : A -> H B) : H B :=
  fun w =>
    match m w with
    | Some (a, w') => k a w'
    | None => None
    end.

(** The world with one more object, after all the others. *)
Definition withObject (w : World) (o : Obj) : World :=
  {| objects := objects w ++ [o]; ambient := ambient w;
     environment := environment w |}.

(** A new object, at a fresh address. *)
Definition allocate (o : Obj) : H nat :=
  fun w => Some (List.length (objects w), withObject w o).

Definition readProduct (l : nat) : H Product :=
  fun w =>
    match objectAt w l with
    | Some (ProductObj p) => Some (p, w)
    | _ => None
    end.

Definition readTurns (l : nat) : H (list Turn) :=
  fun w =>
    match objectAt w l with
    | Some (TurnsObj turns) => Some (turns, w)
    | _ => None
    end.

(** [array.join(sep)] of an array of strings *)
Definition joinAt (sep : jsstring) (l : nat) : H jsstring :=
  fun w =>
    match objectAt w l with
    | Some (StringsObj items) => Some (join sep items, w)
    | _ => None
    end.

(** The three template literals, over the texts interpolated into them. *)
Definition faqBlockOf (entries : jsstring) : jsstring :=
  unlines [ []; lit "FREQUENTLY ASKED QUESTIONS:"; entries ].

Definition productContextOf (p : Product) (faqText : jsstring) : jsstring :=
  trim (unlines ([] :: requiredLines p ++ optionalLines p
                   ++ [ []; faqText; [] ])).

Definition historyContextOf (joined : jsstring) : jsstring :=
  unlines [ []; lit "PREVIOUS CONVERSATION:"; joined; [] ].

Definition systemPromptOf (p : Product) (userMessage productContext
  historyContext : jsstring) : jsstring :=
  unlines
    [ introLine p; []; lit "CRITICAL RULES:"; rule1; rule2 p; rule3; rule4;
      rule5; []; productContext; []; historyContext; [];
      questionLine userMessage; []; closingLine ].

(** [buildGroundedPrompt(product, userMessage, history = [])] with
    [product] and [history] given by reference; [history] is [None] when
    the argument is left out. *)
Definition buildGroundedPromptAt (product : nat) (userMessage : jsstring)
  (history : option nat) : H jsstring :=
  bindH (match history with
         | Some l => retH l
         | None => allocate (TurnsObj [])
         end) (fun history =>
  bindH (readProduct product) (fun p =>
  bindH (match faq p with
         | Some (f :: fs) =>
             bindH (allocate (StringsObj (mapi faqEntry 0 (f :: fs))))
               (fun mapped =>
             bindH (joinAt [] mapped) (fun entries =>
             retH (faqBlockOf entries)))
         | _ => retH []
         end) (fun faqText =>
  let productContext := productContextOf p faqText in
  bindH (readTurns history) (fun turns =>
  bindH (match turns with
         | [] => retH []
         | _ :: _ =>
             bindH (allocate (StringsObj (List.map turnLine turns)))
               (fun mapped =>
             bindH (joinAt [nl] mapped) (fun joined =>
             retH (historyContextOf joined)))
         end) (fun historyContext =>
  retH (systemPromptOf p userMessage productContext historyContext)))))).

(** [w'] is [w] with more objects: every object of [w] is where it was
    and as it was, and the ambient state and environment are the same. *)
Definition Extends (w w' : World) : Prop :=
  (exists more, objects w' = objects w ++ more)
  /\ ambient w' = ambient w /\ environment w' = environment w.

End Store.

Module Sample8.

(** A process that holds the sample product and a history of two turns
    among other objects. *)
Definition busy : World :=
  {| objects := [ StringsObj [lit "unrelated"];
                  ProductObj Sample.quickLoan;
                  TurnsObj Sample2.earlier ];
     ambient := Sample.emptyState;
     environment := Sample.noKeys |}.

(** Another process, later in time, with credentials configured and
    the same product and history at other addresses. *)
Definition later : World :=
  {| objects := [ TurnsObj Sample2.earlier;
                  ProductObj Sample.bareLoan;
                  ProductObj Sample.quickLoan ];
     ambient := {| saved := []; console := [lit "started"]; fetched := [];
                   clock := 1000 |};
     environment := Sample.bothKeys |}.

End Sample8.

(* ================================================================== *)
(** * Properties *)
(* ================================================================== *)

(** ** Strings *)

Lemma lastOr_app prev pre c : lastOr prev (pre ++ [c]) = Some c.
Proof.
  unfold lastOr. rewrite fold_left_app. reflexivity.
Qed.

Lemma lastOr_cons prev c pre : lastOr prev (c :: pre) = lastOr (Some c) pre.
Proof. reflexivity. Qed.

(** ** Regular expressions *)

Module RegexFacts.
Import Regex.

Lemma searchFrom_sound pat s : forall prev,
  searchFrom pat prev s = true ->
  exists pre post, s = pre ++ post /\ matchHere pat (lastOr prev pre) post = true.
Proof.
  induction s as [|c s IH]; intros prev H; simpl in H.
  - rewrite orb_false_r in H. exists [], []. split; [reflexivity|exact H].
  - apply orb_true_iff in H. destruct H as [H|H].
    + exists [], (c :: s). split; [reflexivity|exact H].
    + destruct (IH _ H) as (pre & post & -> & Hm).
      exists (c :: pre), post. split; [reflexivity|exact Hm].
Qed.

Lemma searchFrom_complete pat pre : forall prev post,
  matchHere pat (lastOr prev pre) post = true ->
  searchFrom pat prev (pre ++ post) = true.
Proof.
  induction pre as [|c pre IH]; intros prev post H.
  - simpl in *. destruct post; simpl; rewrite H; reflexivity.
  - simpl. apply orb_true_iff. right. apply IH. exact H.
Qed.

Lemma canonicalize_word c d :
  canonicalize c = canonicalize d -> isWordChar c = isWordChar d.
Proof.
  unfold canonicalize, isWordChar.
  destruct (97 <=? c) eqn:A1; destruct (c <=? 122) eqn:A2;
  destruct (97 <=? d) eqn:B1; destruct (d <=? 122) eqn:B2; simpl;
  intros E; subst; try reflexivity;
  repeat match goal with
  | H : (_ <=? _) = true |- _ => apply N.leb_le in H
  | H : (_ <=? _) = false |- _ => apply N.leb_gt in H
  end;
  repeat match goal with
  | |- context [?x <=? ?y] =>
      let E := fresh in destruct (x <=? y) eqn:E;
      [apply N.leb_le in E | apply N.leb_gt in E]
  | |- context [?x =? ?y] =>
      let E := fresh in destruct (x =? y) eqn:E;
      [apply N.eqb_eq in E | apply N.eqb_neq in E]
  end; simpl; try reflexivity; exfalso; lia.
Qed.

(** Matching the characters of a phrase consumes a spelling of it. *)
Lemma matchHere_chars rest ph : forall prev s,
  matchHere (List.map Char ph ++ rest) prev s = true <->
  exists m post, s = m ++ post /\ spells ph m
                 /\ matchHere rest (lastOr prev m) post = true.
Proof.
  unfold spells.
  induction ph as [|c ph IH]; intros prev s; simpl.
  - split.
    + intros H. exists [], s. repeat split; assumption.
    + intros (m & post & -> & Hs & H). destruct m; [exact H|discriminate].
  - destruct s as [|d s].
    + split; [discriminate|].
      intros (m & post & E & Hs & _). destruct m; [discriminate|discriminate].
    + rewrite andb_true_iff, IH. unfold sameChar. rewrite N.eqb_eq. split.
      * intros (E & m & post & -> & Hs & H).
        exists (d :: m), post. simpl. rewrite Hs, E. repeat split; assumption.
      * intros (m & post & E & Hs & H).
        destruct m as [|d' m]; [discriminate|].
        simpl in E, Hs. injection E as -> ->. injection Hs as E1 Hs.
        split; [symmetry; exact E1|]. exists m, post. repeat split; assumption.
Qed.

Lemma matchHere_boundary prev s :
  matchHere [WordBoundary] prev s = xorb (isWordAt prev) (isWordAt (hd_error s)).
Proof. simpl. apply andb_true_r. Qed.

Lemma spells_head ph m c :
  spells (c :: ph) m -> exists d m', m = d :: m' /\ isWordChar d = isWordChar c.
Proof.
  unfold spells. destruct m as [|d m']; [discriminate|].
  simpl. intros E. injection E as E _. exists d, m'.
  split; [reflexivity|apply canonicalize_word; exact E].
Qed.

Lemma spells_last ph m c prev :
  spells (ph ++ [c]) m -> isWordAt (lastOr prev m) = isWordChar c.
Proof.
  unfold spells. intros E.
  destruct (@exists_last _ m) as (m' & d & ->).
  - intros ->. destruct ph; discriminate.
  - rewrite !map_app in E. simpl in E.
    apply app_inj_tail in E. destruct E as [_ E].
    rewrite lastOr_app. simpl. apply canonicalize_word. exact E.
Qed.

(** [/\bphrase\b/i] matches at a position exactly when a spelling of the
    phrase starts there with no word character on either side. *)
Lemma matchHere_bounded c ph e prev s :
  isWordChar c = true -> isWordChar e = true ->
  matchHere (WordBoundary :: List.map Char (c :: ph ++ [e]) ++ [WordBoundary])
    prev s = true <->
  exists m post, s = m ++ post /\ spells (c :: ph ++ [e]) m
                 /\ isWordAt prev = false /\ isWordAt (hd_error post) = false.
Proof.
  intros Hc He.
  change (matchHere (WordBoundary :: ?p) prev s)
    with (xorb (isWordAt prev) (isWordAt (hd_error s)) && matchHere p prev s).
  rewrite andb_true_iff, matchHere_chars. split.
  - intros (Hb & m & post & -> & Hs & H).
    exists m, post. split; [reflexivity|]. split; [exact Hs|].
    destruct (spells_head _ _ _ Hs) as (d & m' & -> & Hd).
    simpl in Hb. rewrite Hd, Hc in Hb.
    rewrite matchHere_boundary in H.
    rewrite (spells_last (c :: ph) (d :: m') e prev Hs), He in H.
    split.
    + destruct (isWordAt prev); [discriminate|reflexivity].
    + destruct (isWordAt (hd_error post)); [discriminate|reflexivity].
  - intros (m & post & -> & Hs & Hp & Hq).
    destruct (spells_head _ _ _ Hs) as (d & m' & -> & Hd).
    split.
    + simpl. rewrite Hp, Hd, Hc. reflexivity.
    + exists (d :: m'), post. split; [reflexivity|]. split; [exact Hs|].
      rewrite matchHere_boundary.
      rewrite (spells_last (c :: ph) (d :: m') e prev Hs), He, Hq. reflexivity.
Qed.

Lemma test_bounded c ph e s :
  isWordChar c = true -> isWordChar e = true ->
  test (WordBoundary :: List.map Char (c :: ph ++ [e]) ++ [WordBoundary]) s = true
  <-> ContainsAsWords (c :: ph ++ [e]) s.
Proof.
  intros Hc He. unfold test, ContainsAsWords. split.
  - intros H. apply searchFrom_sound in H. destruct H as (pre & post & -> & H).
    apply (matchHere_bounded c ph e _ _ Hc He) in H.
    destruct H as (m & post' & -> & Hs & Hp & Hq).
    exists pre, m, post'. repeat split; assumption.
  - intros (pre & m & post & -> & Hs & Hp & Hq).
    apply searchFrom_complete.
    apply (matchHere_bounded c ph e _ _ Hc He).
    exists m, post. repeat split; assumption.
Qed.

End RegexFacts.

(** ** The response gate *)

Lemma firstSuspicious_cases pats r :
  (existsb (fun p => Regex.test p r) pats = true
   /\ firstSuspicious pats r = invalid)
  \/ (existsb (fun p => Regex.test p r) pats = false
      /\ firstSuspicious pats r = accepted).
Proof.
  induction pats as [|p pats IH]; simpl.
  - right. split; reflexivity.
  - destruct (Regex.test p r); simpl.
    + left. split; reflexivity.
    + exact IH.
Qed.

Lemma test_denylisted phrase r :
  In phrase denylist ->
  (Regex.test (Regex.bounded phrase) r = true <-> ContainsAsWords (lit phrase) r).
Proof.
  intros H. simpl in H.
  destruct H as [<-|[<-|[<-|[<-|[]]]]].
  - exact (RegexFacts.test_bounded 103 (lit "uaranteed approva") 108 r
             eq_refl eq_refl).
  - exact (RegexFacts.test_bounded 49 (lit "00% approva") 108 r eq_refl eq_refl).
  - exact (RegexFacts.test_bounded 110 (lit "o credit chec") 107 r
             eq_refl eq_refl).
  - exact (RegexFacts.test_bounded 105 (lit "nstant approva") 108 r
             eq_refl eq_refl).
Qed.

Lemma suspicious_iff r :
  existsb (fun p => Regex.test p r) suspiciousPatterns = true <->
  exists phrase, In phrase denylist /\ ContainsAsWords (lit phrase) r.
Proof.
  unfold suspiciousPatterns. rewrite existsb_exists. split.
  - intros (p & Hin & Ht). apply in_map_iff in Hin.
    destruct Hin as (phrase & <- & Hin).
    exists phrase. split; [exact Hin|]. apply test_denylisted; assumption.
  - intros (phrase & Hin & Hc). exists (Regex.bounded phrase). split.
    + apply in_map. exact Hin.
    + apply test_denylisted; assumption.
Qed.

(** C1 (as amended): the gate answers invalid, with its reason string,
    exactly when one of the four denylisted phrases occurs in the text
    case-insensitively and delimited by word boundaries, that is with no
    letter, digit or underscore directly before or after the occurrence;
    for every other text it answers valid with no reason. *)
Theorem validateAIResponse_whole_words (response : jsstring) :
  (validateAIResponse response = invalid <->
   exists phrase, In phrase denylist /\ ContainsAsWords (lit phrase) response)
  /\ (validateAIResponse response = accepted <->
      ~ exists phrase, In phrase denylist /\ ContainsAsWords (lit phrase) response).
Proof.
  unfold validateAIResponse.
  destruct (firstSuspicious_cases suspiciousPatterns response) as [[He Hv]|[He Hv]];
    rewrite Hv.
  - apply suspicious_iff in He. split; split.
    + intros _. exact He.
    + reflexivity.
    + discriminate.
    + intros Hn. contradiction.
  - assert (Hn : ~ exists phrase,
               In phrase denylist /\ ContainsAsWords (lit phrase) response).
    { intros Hc. apply suspicious_iff in Hc. rewrite He in Hc. discriminate. }
    split; split.
    + discriminate.
    + intros Hc. contradiction.
    + intros _. exact Hn.
    + reflexivity.
Qed.

(** C1 (as stated) fails: a denylisted phrase glued to a preceding letter
    is a case-insensitive substring of the text, yet the gate accepts it. *)
Lemma validateAIResponse_substring_accepted :
  ContainsIgnoringCase (lit "guaranteed approval") (lit "xguaranteed approval")
  /\ validateAIResponse (lit "xguaranteed approval") = accepted.
Proof.
  split.
  - exists (lit "x"), (lit "guaranteed approval"), [].
    split; reflexivity.
  - reflexivity.
Qed.

(** The examples of the specification. *)
Example gate_upper_case :
  validateAIResponse (lit "GUARANTEED APPROVAL") = invalid.
Proof. reflexivity. Qed.

Example gate_scenario :
  validateAIResponse (lit "The APR is 8.9%, guaranteed approval!") = invalid.
Proof. reflexivity. Qed.

Example gate_factual : validateAIResponse (lit "The rate is 8.9%.") = accepted.
Proof. reflexivity. Qed.

Example gate_each_phrase :
  List.map (fun p => valid (validateAIResponse (lit p))) denylist
  = [false; false; false; false].
Proof. reflexivity. Qed.

(** ** The LLM transport *)





(** ** The handler *)

Section HandlerFacts.
Context {N_ : JsNumber}.

(** The handler sends nothing over the network. *)
Lemma POST_no_fetch (c : Collaborators) (st : State) :
  fetched (snd (POST c st)) = fetched st.
Proof.
  unfold POST, handle, bind, tryCatch, liftResult, parseBody, save,
    consoleError, newDate, ret, throw.
  destruct (requestJson c) as [body|e]; simpl.
  2: { destruct (isError e && eqs (exnName e) (lit "ZodError")); reflexivity. }
  destruct (AIAskSchema_parse (isUuid c) body) as [request|]; simpl.
  2: { reflexivity. }
  destruct (getServerSession c) as [[[|u serId]|]|e]; simpl; try reflexivity.
  2: { destruct (isError e && eqs (exnName e) (lit "ZodError")); reflexivity. }
  destruct (getProductById c (AIAskRequest.productId request)) as [[product|]|e];
    simpl; try reflexivity.
  2: { destruct (isError e && eqs (exnName e) (lit "ZodError")); reflexivity. }
  destruct (valid (validateAIResponse
                     (simulateAIResponse product (AIAskRequest.message request))));
    simpl; [|reflexivity].
  destruct (saveChatMessage c _ (saved st)) as [rows|e]; simpl; [|reflexivity].
  destruct (saveChatMessage c _ rows) as [rows'|e]; reflexivity.
Qed.

(** Once a request reaches the reply, the response is the success payload
    carrying the reply after the gate. *)
Lemma POST_reply (c : Collaborators) (request : AIAskRequest.t)
  (product : Product) (st : State) :
  ReachesReply c request product ->
  fst (POST c st)
  = jsonResponse 200 true
      (Some (finalReply product (AIAskRequest.message request))) None None.
Proof.
  intros ((body & Hb & Hp) & (u & serId & Hs) & Hg).
  unfold POST, handle, bind, tryCatch, liftResult, parseBody, save,
    consoleError, newDate, ret, throw, finalReply.
  rewrite Hb. simpl. rewrite Hp. simpl. rewrite Hs. simpl. rewrite Hg. simpl.
  destruct (valid (validateAIResponse
                     (simulateAIResponse product (AIAskRequest.message request))));
    simpl; [|reflexivity].
  destruct (saveChatMessage c _ (saved st)) as [rows|e]; simpl; [|reflexivity].
  destruct (saveChatMessage c _ rows) as [rows'|e]; reflexivity.
Qed.

Lemma ReachesReply_withSave c saving request product :
  ReachesReply c request product ->
  ReachesReply (withSave c saving) request product.
Proof. intros H. exact H. Qed.

Lemma safeFallback_accepted : validateAIResponse safeFallback = accepted.
Proof. reflexivity. Qed.

(** C8: when the gate rejects the generated reply, the handler answers
    with the fixed fallback sentence, and the rejected text is not what the
    caller receives. *)
Theorem POST_gate_substitutes (c : Collaborators) (request : AIAskRequest.t)
  (product : Product) (st : State) :
  ReachesReply c request product ->
  valid (validateAIResponse
           (simulateAIResponse product (AIAskRequest.message request))) = false ->
  fst (POST c st) = jsonResponse 200 true (Some safeFallback) None None
  /\ NextResponse.message (fst (POST c st))
     <> Some (simulateAIResponse product (AIAskRequest.message request)).
Proof.
  intros Hr Hv. rewrite (POST_reply c request product st Hr).
  unfold finalReply. rewrite Hv. split; [reflexivity|].
  simpl. intros E. injection E as E. rewrite <- E in Hv.
  rewrite safeFallback_accepted in Hv. discriminate.
Qed.

(** C9: once a request has its reply, generated or substituted, the
    handler returns it with the success payload whatever [saveChatMessage]
    does, so also when saving the user turn or the assistant turn throws. *)
Theorem POST_persistence_not_fatal (c : Collaborators)
  (saving : ChatMessage -> list ChatMessage -> Result (list ChatMessage))
  (request : AIAskRequest.t) (product : Product) (st : State) :
  ReachesReply c request product ->
  fst (POST (withSave c saving) st)
  = jsonResponse 200 true
      (Some (finalReply product (AIAskRequest.message request))) None None.
Proof.
  intros Hr. apply POST_reply. apply ReachesReply_withSave. exact Hr.
Qed.

(** C10: two validated requests with the same product id and message, and
    any histories, get the same response and leave the same state; the
    reply is the gated output of [simulateAIResponse] on the product and
    the message; and the handler sends no request over the network. *)
Theorem POST_ignores_history (c : Collaborators) (body1 body2 : Json)
  (r1 r2 : AIAskRequest.t) (st : State) :
  AIAskSchema_parse (isUuid c) body1 = Some r1 ->
  AIAskSchema_parse (isUuid c) body2 = Some r2 ->
  AIAskRequest.productId r1 = AIAskRequest.productId r2 ->
  AIAskRequest.message r1 = AIAskRequest.message r2 ->
  POST (withRequest c body1) st = POST (withRequest c body2) st
  /\ (forall product,
        ReachesReply (withRequest c body1) r1 product ->
        fst (POST (withRequest c body1) st)
        = jsonResponse 200 true
            (Some (finalReply product (AIAskRequest.message r1))) None None)
  /\ fetched (snd (POST (withRequest c body1) st)) = fetched st.
Proof.
  intros H1 H2 Hp Hm. split; [|split].
  - unfold POST, handle, bind, liftResult, parseBody. simpl.
    rewrite H1, H2. simpl. rewrite Hp, Hm. reflexivity.
  - intros product Hr. apply POST_reply. exact Hr.
  - apply POST_no_fetch.
Qed.

End HandlerFacts.

Lemma POST_gate_substitutes_witness :
  fst (POST (Sample.serving Sample.boastfulLoan Sample.askRate true)
         Sample.emptyState)
  = jsonResponse 200 true (Some safeFallback) None None
  /\ NextResponse.message
       (fst (POST (Sample.serving Sample.boastfulLoan Sample.askRate true)
               Sample.emptyState))
     <> Some (simulateAIResponse Sample.boastfulLoan
                (lit "What's the interest rate?")).
Proof.
  apply (POST_gate_substitutes
           (Sample.serving Sample.boastfulLoan Sample.askRate true)
           {| AIAskRequest.productId := id Sample.quickLoan;
              AIAskRequest.message := lit "What's the interest rate?";
              AIAskRequest.history := None |}
           Sample.boastfulLoan Sample.emptyState).
  - split; [|split].
    + exists Sample.askRate. split; reflexivity.
    + exists 117, (lit "ser-1"). reflexivity.
    + reflexivity.
  - reflexivity.
Defined.

Lemma POST_persistence_not_fatal_witness :
  fst (POST (Sample.serving Sample.quickLoan Sample.askRate false)
         Sample.emptyState)
  = jsonResponse 200 true
      (Some (lit "The Quick Personal Loan has an annual percentage rate (APR) of 8.9%. This is considered a competitive low rate in the current market."))
      None None.
Proof.
  apply (POST_persistence_not_fatal
           (Sample.serving Sample.quickLoan Sample.askRate true)
           (fun _ _ => Throw Sample.dbDown)
           {| AIAskRequest.productId := id Sample.quickLoan;
              AIAskRequest.message := lit "What's the interest rate?";
              AIAskRequest.history := None |}
           Sample.quickLoan Sample.emptyState).
  split; [|split].
  - exists Sample.askRate. split; reflexivity.
  - exists 117, (lit "ser-1"). reflexivity.
  - reflexivity.
Defined.

Lemma POST_ignores_history_witness :
  POST (Sample.serving Sample.quickLoan Sample.askRate true) Sample.emptyState
  = POST (Sample.serving Sample.quickLoan Sample.askRateWithHistory true)
      Sample.emptyState.
Proof.
  apply (POST_ignores_history
           (Sample.serving Sample.quickLoan Sample.askRate true)
           Sample.askRate Sample.askRateWithHistory
           {| AIAskRequest.productId := id Sample.quickLoan;
              AIAskRequest.message := lit "What's the interest rate?";
              AIAskRequest.history := None |}
           {| AIAskRequest.productId := id Sample.quickLoan;
              AIAskRequest.message := lit "What's the interest rate?";
              AIAskRequest.history :=
                Some [ {| role := user; content := lit "Hello" |} ] |}
           Sample.emptyState); reflexivity.
Defined.

(** ** Lines and trimming *)

Module StringFacts.

Lemma trimEnd_cons_keep c s :
  isWhiteSpace c = false -> trimEnd (c :: s) = c :: trimEnd s.
Proof.
  intros H. simpl. rewrite H. destruct (trimEnd s); reflexivity.
Qed.

Lemma trimEnd_app_keep x c s :
  isWhiteSpace c = false -> trimEnd (x ++ c :: s) = x ++ c :: trimEnd s.
Proof.
  intros H. induction x as [|d x IH].
  - apply trimEnd_cons_keep. exact H.
  - simpl. rewrite IH. destruct x; reflexivity.
Qed.

Lemma trimEnd_white w : forallb isWhiteSpace w = true -> trimEnd w = [].
Proof.
  induction w as [|c w IH]; simpl; [reflexivity|].
  intros H. apply andb_true_iff in H. destruct H as [Hc Hw].
  rewrite (IH Hw), Hc. reflexivity.
Qed.

Lemma trimEnd_app_white x w :
  forallb isWhiteSpace w = true -> trimEnd (x ++ w) = trimEnd x.
Proof.
  intros Hw. induction x as [|c x IH]; simpl.
  - apply trimEnd_white. exact Hw.
  - rewrite IH. reflexivity.
Qed.

(** [trimEnd] cuts a run of white space off the end. *)
Lemma trimEnd_split s :
  exists w, s = trimEnd s ++ w /\ forallb isWhiteSpace w = true.
Proof.
  induction s as [|c s (w & E & Hw)].
  - exists []. split; reflexivity.
  - simpl. destruct (trimEnd s) as [|d t] eqn:Et.
    + destruct (isWhiteSpace c) eqn:Hc.
      * exists (c :: s). split; [reflexivity|].
        simpl in E. subst w. simpl. rewrite Hc, Hw. reflexivity.
      * exists w. split; [|exact Hw]. simpl in *. congruence.
    + exists w. split; [|exact Hw]. simpl in *. congruence.
Qed.

Lemma lines_nonempty s : lines s <> [].
Proof.
  destruct s as [|c s]; simpl; [discriminate|].
  destruct (c =? nl); [discriminate|].
  destruct (lines s); discriminate.
Qed.

Lemma lines_app_nl x y : lines (x ++ nl :: y) = lines x ++ lines y.
Proof.
  induction x as [|c x IH]; simpl.
  - reflexivity.
  - destruct (c =? nl).
    + rewrite IH. reflexivity.
    + rewrite IH. pose proof (lines_nonempty x) as Hx.
      destruct (lines x); [contradiction|reflexivity].
Qed.

Lemma lines_single s : noNewline s = true -> lines s = [s].
Proof.
  induction s as [|c s IH]; simpl; [reflexivity|].
  intros H. apply andb_true_iff in H. destruct H as [Hc Hs].
  apply negb_true_iff in Hc. rewrite Hc, (IH Hs). reflexivity.
Qed.

Lemma lines_snoc x c :
  (c =? nl) = false -> lines (x ++ [c]) = appendLast (lines x) c.
Proof.
  intros Hc. induction x as [|d x IH]; simpl.
  - rewrite Hc. reflexivity.
  - pose proof (lines_nonempty x) as Hx. destruct (d =? nl).
    + rewrite IH. destruct (lines x); [contradiction|reflexivity].
    + rewrite IH. destruct (lines x) as [|l [|l' ls]];
        [contradiction|reflexivity|reflexivity].
Qed.

Lemma noNewline_app x y : noNewline (x ++ y) = noNewline x && noNewline y.
Proof. apply forallb_app. Qed.

Section Select.
Variable P : jsstring -> bool.
Hypothesis HP : LineTest P.

Lemma selectLines_app_nl x y :
  selectLines P (x ++ nl :: y) = selectLines P x ++ selectLines P y.
Proof.
  unfold selectLines. rewrite lines_app_nl. apply filter_app.
Qed.

Lemma selectLines_nil : selectLines P [] = [].
Proof.
  unfold selectLines. simpl. rewrite (test_empty P HP). reflexivity.
Qed.

Lemma selectLines_nl y : selectLines P (nl :: y) = selectLines P y.
Proof.
  change (nl :: y) with ([] ++ nl :: y).
  rewrite selectLines_app_nl, selectLines_nil. reflexivity.
Qed.

Lemma selectLines_unlines parts :
  selectLines P (unlines parts) = flat_map (selectLines P) parts.
Proof.
  unfold unlines. induction parts as [|p parts IH].
  - apply selectLines_nil.
  - destruct parts as [|p' parts].
    + simpl. rewrite app_nil_r. reflexivity.
    + change (join [nl] (p :: p' :: parts))
        with (p ++ nl :: join [nl] (p' :: parts)).
      rewrite selectLines_app_nl, IH. reflexivity.
Qed.

Lemma selectLines_single s :
  noNewline s = true -> selectLines P s = if P s then [s] else [].
Proof.
  intros H. unfold selectLines. rewrite (lines_single s H). reflexivity.
Qed.

Lemma select_appendLast ls c :
  isWhiteSpace c = true ->
  List.map trimEnd (filter P (appendLast ls c)) = List.map trimEnd (filter P ls).
Proof.
  intros Hc. induction ls as [|l ls IH]; [reflexivity|].
  destruct ls as [|l' ls].
  - simpl. rewrite (test_trailing P HP l c Hc).
    destruct (P l); [|reflexivity]. simpl.
    rewrite (trimEnd_app_white l [c]); [reflexivity|].
    simpl. rewrite Hc. reflexivity.
  - change (appendLast (l :: l' :: ls) c) with (l :: appendLast (l' :: ls) c).
    remember (l' :: ls) as t eqn:Et. simpl.
    destruct (P l); simpl; rewrite IH; reflexivity.
Qed.

Lemma selectLines_snoc_white x c :
  isWhiteSpace c = true ->
  List.map trimEnd (selectLines P (x ++ [c])) = List.map trimEnd (selectLines P x).
Proof.
  intros Hc. destruct (c =? nl) eqn:Hn.
  - apply N.eqb_eq in Hn. subst c.
    rewrite selectLines_app_nl, selectLines_nil, app_nil_r. reflexivity.
  - unfold selectLines. rewrite (lines_snoc x c Hn).
    apply select_appendLast. exact Hc.
Qed.

Lemma selectLines_app_white w : forall x,
  forallb isWhiteSpace w = true ->
  List.map trimEnd (selectLines P (x ++ w)) = List.map trimEnd (selectLines P x).
Proof.
  induction w as [|c w IH]; intros x Hw.
  - rewrite app_nil_r. reflexivity.
  - simpl in Hw. apply andb_true_iff in Hw. destruct Hw as [Hc Hw].
    change (x ++ c :: w) with (x ++ [c] ++ w). rewrite app_assoc.
    rewrite (IH (x ++ [c]) Hw). apply selectLines_snoc_white. exact Hc.
Qed.

(** Up to white space at the end of lines, trimming the end of a text
    keeps its selected lines. *)
Lemma selectLines_trimEnd s :
  List.map trimEnd (selectLines P (trimEnd s)) = List.map trimEnd (selectLines P s).
Proof.
  destruct (trimEnd_split s) as (w & E & Hw).
  rewrite E at 2. symmetry. apply selectLines_app_white. exact Hw.
Qed.

End Select.

End StringFacts.

(** ** The shape of the prompt *)

Module PromptShape.

Lemma unlines_cons x l : l <> [] -> unlines (x :: l) = x ++ nl :: unlines l.
Proof. destruct l; [contradiction|reflexivity]. Qed.

Lemma unlines_app l1 l2 :
  l1 <> [] -> l2 <> [] -> unlines (l1 ++ l2) = unlines l1 ++ nl :: unlines l2.
Proof.
  induction l1 as [|x l1 IH]; intros H1 H2; [contradiction|].
  destruct l1 as [|y l1].
  - apply unlines_cons. exact H2.
  - change ((x :: y :: l1) ++ l2) with (x :: (y :: l1) ++ l2).
    rewrite unlines_cons by discriminate.
    rewrite IH by (assumption || discriminate).
    rewrite (unlines_cons x (y :: l1)) by discriminate.
    rewrite <- app_assoc. reflexivity.
Qed.

(** A part that is itself a join of lines can be spliced in. *)
Lemma unlines_splice l1 m l2 :
  m <> [] -> unlines (l1 ++ unlines m :: l2) = unlines (l1 ++ m ++ l2).
Proof.
  intros Hm.
  assert (Hbase : unlines (unlines m :: l2) = unlines (m ++ l2)).
  { destruct l2 as [|y l2].
    - rewrite app_nil_r. reflexivity.
    - rewrite unlines_cons by discriminate.
      rewrite unlines_app by (assumption || discriminate). reflexivity. }
  induction l1 as [|x l1 IH]; [exact Hbase|].
  change ((x :: l1) ++ unlines m :: l2) with (x :: (l1 ++ unlines m :: l2)).
  change ((x :: l1) ++ m ++ l2) with (x :: (l1 ++ m ++ l2)).
  rewrite !unlines_cons; [rewrite IH; reflexivity| |].
  - destruct l1; destruct m; try discriminate; contradiction.
  - destruct l1; discriminate.
Qed.

Lemma unlines_splice2 (l1 m1 m2 l2 : list jsstring) :
  m1 <> [] -> m2 <> [] ->
  unlines (l1 ++ unlines m1 :: [] :: unlines m2 :: l2)
  = unlines (l1 ++ m1 ++ [ [] ] ++ m2 ++ l2).
Proof.
  intros H1 H2. rewrite (unlines_splice l1 m1 _ H1).
  replace (l1 ++ m1 ++ [] :: unlines m2 :: l2)
    with ((l1 ++ m1 ++ [ [] ]) ++ unlines m2 :: l2)
    by (rewrite <- !app_assoc; reflexivity).
  rewrite (unlines_splice _ m2 l2 H2). rewrite <- !app_assoc. reflexivity.
Qed.

Ltac splice l1 m l2 Hm :=
  let E := fresh "E" in
  pose proof (unlines_splice l1 m l2 Hm) as E;
  cbn [app] in E; rewrite ?app_nil_r in E; cbn [app];
  (exact E || (etransitivity; [exact E|])).

Section WithNumbers.
Context {N_ : JsNumber}.

Lemma join_nil_cons (x : jsstring) l : join [] (x :: l) = x ++ join [] l.
Proof. destruct l; [symmetry; apply app_nil_r|reflexivity]. Qed.

Lemma entryLines_nonempty i fs : entryLines i fs <> [].
Proof. unfold entryLines. destruct (List.concat _); discriminate. Qed.

Lemma faqEntries_lines fs : forall i,
  join [] (mapi faqEntry i fs) = unlines (entryLines i fs).
Proof.
  induction fs as [|f fs IH]; intros i.
  - reflexivity.
  - change (mapi faqEntry i (f :: fs)) with (faqEntry i f :: mapi faqEntry (S i) fs).
    rewrite join_nil_cons, IH.
    change (entryLines i (f :: fs))
      with ([ []; questionText i f; answerText i f ] ++ entryLines (S i) fs).
    rewrite unlines_app by (discriminate || apply entryLines_nonempty).
    unfold faqEntry, questionText, answerText.
    generalize (decimalNat (i + 1)), (q f), (a f), (unlines (entryLines (S i) fs)).
    intros d qf af rest. cbn [unlines join].
    repeat (rewrite <- app_assoc; cbn [app]). reflexivity.
Qed.

Lemma faqBlock_lines p : faqBlock p = unlines (faqBlockLines p).
Proof.
  unfold faqBlock, faqBlockLines, faqEntries.
  destruct (faq p) as [[|f fs]|]; try reflexivity.
  rewrite faqEntries_lines.
  splice [ []; lit "FREQUENTLY ASKED QUESTIONS:" ] (entryLines 0 (f :: fs))
    (@nil jsstring) (entryLines_nonempty 0 (f :: fs)).
Qed.

Lemma historyContext_lines h : historyContext h = unlines (historyLines h).
Proof.
  destruct h as [|t h]; [reflexivity|].
  unfold historyContext, historyLines.
  assert (Hm : List.map turnLine (t :: h) <> []) by discriminate.
  change (join [nl] (List.map turnLine (t :: h)))
    with (unlines (List.map turnLine (t :: h))).
  splice [ []; lit "PREVIOUS CONVERSATION:" ] (List.map turnLine (t :: h))
    [ @nil N ] Hm.
Qed.

Lemma faqBlockLines_nonempty p : faqBlockLines p <> [].
Proof. unfold faqBlockLines. destruct (faq p) as [[|f fs]|]; discriminate. Qed.

Lemma historyLines_nonempty h : historyLines h <> [].
Proof. destruct h; discriminate. Qed.

Lemma productContextRaw_lines p :
  productContextRaw p
  = unlines ([] :: requiredLines p ++ optionalLines p ++ [ [] ]
               ++ faqBlockLines p ++ [ [] ]).
Proof.
  unfold productContextRaw, requiredLines, optionalLines.
  rewrite faqBlock_lines.
  pose proof (unlines_splice ([] :: requiredLines p ++ optionalLines p ++ [ [] ])
                (faqBlockLines p) [ [] ] (faqBlockLines_nonempty p)) as E.
  unfold requiredLines, optionalLines in E. cbn [app] in *.
  exact E.
Qed.

Lemma promptBeforeTrim_lines p question h :
  promptBeforeTrim p question h = unlines (promptLines p question h).
Proof.
  unfold promptBeforeTrim, promptLines.
  rewrite productContextRaw_lines, historyContext_lines.
  apply (unlines_splice2
           [ introLine p; []; lit "CRITICAL RULES:"; rule1; rule2 p; rule3;
             rule4; rule5; [] ]
           ([] :: requiredLines p ++ optionalLines p ++ [ [] ]
              ++ faqBlockLines p ++ [ [] ])
           (historyLines h)
           [ []; questionLine question; []; closingLine ]).
  - discriminate.
  - apply historyLines_nonempty.
Qed.

End WithNumbers.
End PromptShape.

(** ** The product block after trimming *)

Import StringFacts PromptShape.

Section ContextFacts.
Context {N_ : JsNumber}.

Lemma productContextRaw_tail p :
  productContextRaw p = nl :: unlines (requiredLines p) ++ contextTail p.
Proof.
  unfold contextTail.
  rewrite <- (unlines_app (requiredLines p)) by discriminate.
  reflexivity.
Qed.

Lemma requiredLines_ends p :
  exists x y, unlines (requiredLines p) = 80 :: x /\ unlines (requiredLines p) = y ++ [115].
Proof.
  unfold requiredLines.
  generalize (name p), (bank p), (loanTypeText (type p)),
    (numToString (rate_apr p)), (formatCurrencyINR (min_income p)),
    (numToString (min_credit_score p)), (numToString (tenure_min_months p)),
    (numToString (tenure_max_months p)).
  intros n b t r i c t1 t2.
  eexists. exists (unlines [ lit "PRODUCT INFORMATION:";
                         lit "- Product Name: " ++ n;
                         lit "- Bank: " ++ b;
                         lit "- Loan Type: " ++ t;
                         lit "- Interest Rate (APR): " ++ r ++ lit "%";
                         lit "- Minimum Income Required: " ++ i ++ lit " per month";
                         lit "- Minimum Credit Score: " ++ c;
                         lit "- Tenure Range: " ++ t1 ++ lit " to " ++ t2 ++ lit " month" ]).
  split.
  - simpl. reflexivity.
  - cbn [unlines join]. repeat (rewrite <- app_assoc; cbn [app]).
    repeat f_equal.
Qed.

(** Trimming removes the newline in front of the block and white space
    after the optional lines and the FAQ; the required lines stay. *)
Lemma productContext_split p :
  productContext p = unlines (requiredLines p) ++ trimEnd (contextTail p).
Proof.
  unfold productContext, trim. rewrite productContextRaw_tail.
  destruct (requiredLines_ends p) as (x & y & Ex & Ey).
  assert (Hs : trimStart (nl :: unlines (requiredLines p) ++ contextTail p)
               = unlines (requiredLines p) ++ contextTail p).
  { rewrite Ex. reflexivity. }
  rewrite Hs, Ey, <- !app_assoc. cbn [app].
  apply trimEnd_app_keep. reflexivity.
Qed.

Lemma HasLine_mid l1 x l2 :
  l1 <> [] -> l2 <> [] -> HasLine x (unlines (l1 ++ x :: l2)).
Proof.
  intros H1 H2. exists (unlines l1), (unlines l2).
  rewrite unlines_app by (assumption || discriminate).
  rewrite unlines_cons by assumption. reflexivity.
Qed.

Lemma HasLine_app before after x t :
  HasLine x t -> HasLine x (before ++ t ++ after).
Proof.
  intros (pre & post & ->). exists (before ++ pre), (post ++ after).
  rewrite <- !app_assoc. cbn [app]. rewrite <- !app_assoc. reflexivity.
Qed.

(** The prompt, part by part. *)
Lemma buildGroundedPrompt_parts p userMessage history :
  buildGroundedPrompt p userMessage history
  = (introLine p ++ [nl; nl]) ++ rulesSection p
    ++ [nl; nl] ++ productContext p
    ++ [nl; nl] ++ historyContext history
    ++ [nl; nl] ++ questionLine userMessage
    ++ [nl; nl] ++ closingLine.
Proof.
  unfold buildGroundedPrompt, promptParts, rulesSection.
  generalize (introLine p), (rule2 p), (productContext p),
    (historyContext history), (questionLine userMessage).
  intros i r2 ctx hist qn. cbn [unlines join].
  repeat (rewrite <- app_assoc; cbn [app]). reflexivity.
Qed.

Lemma incomeLine_in_required p :
  HasLine (lit "- Minimum Income Required: "
             ++ formatCurrencyINR (min_income p) ++ lit " per month")
    (unlines (requiredLines p)).
Proof.
  apply (HasLine_mid
           [ lit "PRODUCT INFORMATION:";
             lit "- Product Name: " ++ name p;
             lit "- Bank: " ++ bank p;
             lit "- Loan Type: " ++ loanTypeText (type p);
             lit "- Interest Rate (APR): " ++ numToString (rate_apr p) ++ lit "%" ]
           _
           [ lit "- Minimum Credit Score: " ++ numToString (min_credit_score p);
             lit "- Tenure Range: " ++ numToString (tenure_min_months p)
               ++ lit " to " ++ numToString (tenure_max_months p)
               ++ lit " months" ]); discriminate.
Qed.

Lemma incomeLine_in_prompt p userMessage history :
  HasLine (lit "- Minimum Income Required: "
             ++ formatCurrencyINR (min_income p) ++ lit " per month")
    (buildGroundedPrompt p userMessage history).
Proof.
  rewrite buildGroundedPrompt_parts, productContext_split.
  rewrite (app_assoc (introLine p ++ [nl; nl])), (app_assoc _ [nl; nl]).
  rewrite <- (app_assoc (unlines (requiredLines p))).
  apply HasLine_app. apply incomeLine_in_required.
Qed.

(** C4: when the minimum income is null, undefined or NaN, the prompt has
    the line "- Minimum Income Required: Not specified per month"; when it
    is a number, the line shows the rupee sign followed by the number as
    [toLocaleString('en-IN')] groups it. *)
Theorem minimum_income_line (p : Product) (userMessage : jsstring)
  (history : list Turn) :
  (incomeMissing (min_income p) = true ->
   HasLine (lit "- Minimum Income Required: Not specified per month")
     (buildGroundedPrompt p userMessage history))
  /\ (forall n grouped,
        min_income p = Value n -> numIsNaN n = false ->
        toLocaleStringEnIN n = Some grouped ->
        HasLine (lit "- Minimum Income Required: " ++ rupee :: grouped
                   ++ lit " per month")
          (buildGroundedPrompt p userMessage history)).
Proof.
  pose proof (incomeLine_in_prompt p userMessage history) as H.
  unfold formatCurrencyINR, incomeMissing in *. split.
  - intros Hm. destruct (min_income p) as [| |n]; try exact H.
    rewrite Hm in H. exact H.
  - intros n grouped E Hn Hg. rewrite E, Hn, Hg in H. exact H.
Qed.

End ContextFacts.

Lemma minimum_income_line_witness :
  HasLine (lit "- Minimum Income Required: Not specified per month")
    (buildGroundedPrompt Sample2.incomelessLoan Sample2.question [])
  /\ HasLine (lit "- Minimum Income Required: " ++ rupee :: lit "25,000"
                ++ lit " per month")
       (buildGroundedPrompt Sample.quickLoan Sample2.question []).
Proof.
  split.
  - apply (proj1 (minimum_income_line Sample2.incomelessLoan Sample2.question [])).
    reflexivity.
  - apply (proj2 (minimum_income_line Sample.quickLoan Sample2.question [])
             (Dec2.int 25000) (lit "25,000")); reflexivity.
Defined.

(** ** The order of the parts *)

Lemma dropPrefix_app x b : dropPrefix x (x ++ b) = Some b.
Proof.
  induction x as [|c x IH]; simpl; [reflexivity|].
  rewrite N.eqb_refl. exact IH.
Qed.

Lemma findAfter_intro x check before after :
  check after = true -> findAfter x check (before ++ x ++ after) = true.
Proof.
  intros H. induction before as [|c before IH].
  - cbn [app]. destruct (x ++ after) eqn:E; simpl; rewrite <- E;
      rewrite dropPrefix_app, H; reflexivity.
  - cbn [app findAfter]. rewrite IH. apply orb_true_r.
Qed.

Lemma inOrder_cons x xs before after :
  inOrder xs after = true -> inOrder (x :: xs) (before ++ x ++ after) = true.
Proof. intros H. simpl. apply findAfter_intro. exact H. Qed.

Lemma inOrder_last x before : inOrder [x] (before ++ x) = true.
Proof.
  rewrite <- (app_nil_r x) at 2. apply inOrder_cons. reflexivity.
Qed.

Section OrderFacts.
Context {N_ : JsNumber}.

Lemma contextTail_faq p :
  contextTail p = (nl :: unlines (optionalLines p)) ++ [nl; nl] ++ faqBlock p ++ [nl].
Proof.
  unfold contextTail. rewrite unlines_app by discriminate.
  generalize (unlines (optionalLines p)), (faqBlock p). intros o f.
  cbn [unlines join]. repeat (rewrite <- app_assoc; cbn [app]). reflexivity.
Qed.

(** The trimmed product block is the listing, some white space, and the
    FAQ block. *)
Lemma productContext_sections p :
  exists gap, productContext p = listingSection p ++ gap ++ faqSection p.
Proof.
  rewrite productContext_split, contextTail_faq.
  unfold listingSection, faqSection, faqBlock.
  destruct (trimEnd_split (nl :: unlines (optionalLines p))) as (w & Ew & Hw).
  destruct (faq p) as [[|f fs]|].
  - exists []. rewrite trimEnd_app_white by reflexivity.
    rewrite !app_nil_r. reflexivity.
  - exists (w ++ [nl; nl; nl]).
    set (entries := faqEntries (f :: fs)).
    set (o := nl :: unlines (optionalLines p)) in *.
    assert (E : o ++ [nl; nl]
                  ++ unlines [ []; lit "FREQUENTLY ASKED QUESTIONS:"; entries ]
                  ++ [nl]
                = (o ++ [nl; nl; nl] ++ lit "FREQUENTLY ASKED QUESTIONS")
                    ++ 58 :: (nl :: entries) ++ [nl]).
    { generalize o, entries. intros o' e'. cbn [unlines join].
      repeat (rewrite <- app_assoc; cbn [app]). reflexivity. }
    rewrite E, trimEnd_app_keep by reflexivity.
    rewrite (trimEnd_app_white (nl :: entries) [nl]) by reflexivity.
    rewrite Ew at 1. generalize (trimEnd o), (trimEnd (nl :: entries)).
    intros to te. generalize (unlines (requiredLines p)). intros r.
    repeat (rewrite <- app_assoc; cbn [app]). reflexivity.
  - exists []. rewrite trimEnd_app_white by reflexivity.
    rewrite !app_nil_r. reflexivity.
Qed.

(** C2 (as amended): the prompt holds its parts in this order: the five
    rules, the listing of the present product fields, the numbered FAQ
    block when there are entries, the transcript of prior turns when there
    are any, the user question, and the closing directive. *)
Theorem buildGroundedPrompt_order (p : Product) (userMessage : jsstring)
  (history : list Turn) :
  inOrder (sectionsInPrompt p userMessage history)
    (buildGroundedPrompt p userMessage history) = true.
Proof.
  rewrite buildGroundedPrompt_parts.
  destruct (productContext_sections p) as (gap & ->).
  unfold sectionsInPrompt.
  generalize (introLine p), (rulesSection p), (listingSection p),
    (faqSection p), (historyContext history), (questionLine userMessage),
    closingLine.
  intros intro rules listing faqs hist qn closing.
  apply inOrder_cons.
  rewrite <- !app_assoc.
  apply inOrder_cons.
  apply inOrder_cons.
  apply inOrder_cons.
  apply inOrder_cons.
  apply inOrder_last.
Qed.

End OrderFacts.

(** C2 (as stated) fails: in the prompt of a fully populated product with
    prior turns the rules come first, so the parts do not occur in the
    order listing, FAQ, transcript, rules, question, closing directive;
    they do occur with the rules first. *)
Lemma buildGroundedPrompt_rules_first :
  inOrder (sectionsAsListed Sample.quickLoan Sample2.question Sample2.earlier)
    (buildGroundedPrompt Sample.quickLoan Sample2.question Sample2.earlier)
  = false
  /\ inOrder (sectionsInPrompt Sample.quickLoan Sample2.question Sample2.earlier)
       (buildGroundedPrompt Sample.quickLoan Sample2.question Sample2.earlier)
     = true.
Proof. split; vm_compute; reflexivity. Qed.

(** ** Lines of the prompt *)

Lemma digit_range n : isDigit (48 + n mod 10) = true.
Proof.
  unfold isDigit.
  assert (H : n mod 10 < 10) by (apply N.mod_upper_bound; discriminate).
  revert H. generalize (n mod 10). intros m H.
  apply andb_true_iff. split; apply N.leb_le; lia.
Qed.

Lemma digitsFrom_head fuel : forall n acc,
  fuel <> O \/ headDigit acc = true -> headDigit (digitsFrom fuel n acc) = true.
Proof.
  induction fuel as [|fuel IH]; intros n acc H.
  - destruct H as [H|H]; [contradiction|exact H].
  - simpl. destruct (n <? 10).
    + apply digit_range.
    + apply IH. right. apply digit_range.
Qed.

Lemma decimalNat_head n : headDigit (decimalNat n) = true.
Proof.
  unfold decimalNat, decimalN. apply digitsFrom_head. left. discriminate.
Qed.

Lemma digitsFrom_noNewline fuel : forall n acc,
  noNewline acc = true -> noNewline (digitsFrom fuel n acc) = true.
Proof.
  induction fuel as [|fuel IH]; intros n acc H; [exact H|].
  assert (Hd : noNewline ((48 + n mod 10) :: acc) = true).
  { change (negb (48 + n mod 10 =? nl) && noNewline acc = true).
    rewrite H, andb_true_r. apply negb_true_iff.
    apply N.eqb_neq. unfold nl. generalize (n mod 10). intros m. lia. }
  simpl digitsFrom. destruct (n <? 10); [exact Hd|]. apply IH. exact Hd.
Qed.

Lemma decimalNat_noNewline n : noNewline (decimalNat n) = true.
Proof.
  unfold decimalNat, decimalN. apply digitsFrom_noNewline. reflexivity.
Qed.

Section LineFacts.
Context {N_ : JsNumber}.

Lemma productContext_trimEnd p :
  productContext p = trimEnd (unlines (requiredLines p) ++ contextTail p).
Proof.
  unfold productContext, trim. rewrite productContextRaw_tail.
  destruct (requiredLines_ends p) as (x & y & Ex & Ey).
  rewrite Ex. reflexivity.
Qed.

Section Selected.
Variable P : jsstring -> bool.
Hypothesis HP : LineTest P.

Lemma select_productContext p :
  List.map trimEnd (selectLines P (productContext p))
  = List.map trimEnd (selectLines P (productContextRaw p)).
Proof.
  rewrite productContext_trimEnd, productContextRaw_tail.
  rewrite (selectLines_nl P HP). apply (selectLines_trimEnd P HP).
Qed.

(** Up to white space at the end of lines, the selected lines of the
    prompt are those of the template before the product block is trimmed. *)
Lemma select_prompt p question h :
  List.map trimEnd (selectLines P (buildGroundedPrompt p question h))
  = List.map trimEnd (selectLines P (promptBeforeTrim p question h)).
Proof.
  unfold buildGroundedPrompt, promptBeforeTrim, promptParts.
  rewrite !(selectLines_unlines P HP).
  cbn [flat_map]. rewrite !map_app. rewrite select_productContext.
  reflexivity.
Qed.

Lemma select_single_lines ls :
  forallb noNewline ls = true -> flat_map (selectLines P) ls = filter P ls.
Proof.
  induction ls as [|l ls IH]; [reflexivity|].
  cbn [forallb flat_map filter]. intros H. apply andb_true_iff in H.
  destruct H as [Hl Hls]. rewrite (selectLines_single P l Hl), (IH Hls).
  destruct (P l); reflexivity.
Qed.

End Selected.

Lemma noNewline_cons c s : noNewline (c :: s) = negb (c =? nl) && noNewline s.
Proof. reflexivity. Qed.

Lemma entryLines_single fs : forall i,
  forallb (fun f => noNewline (q f) && noNewline (a f)) fs = true ->
  forallb noNewline (entryLines i fs) = true.
Proof.
  induction fs as [|f fs IH]; intros i H; [reflexivity|].
  cbn [forallb] in H. apply andb_true_iff in H. destruct H as [Hf Hfs].
  apply andb_true_iff in Hf. destruct Hf as [Hq Ha].
  change (entryLines i (f :: fs))
    with ([ []; questionText i f; answerText i f ] ++ entryLines (S i) fs).
  rewrite forallb_app. apply andb_true_iff. split; [|apply IH; exact Hfs].
  unfold questionText, answerText. cbn [forallb].
  rewrite !noNewline_app, !decimalNat_noNewline, Hq, Ha. reflexivity.
Qed.

Lemma turnLines_single h :
  forallb (fun t => noNewline (content t)) h = true ->
  forallb noNewline (List.map turnLine h) = true.
Proof.
  induction h as [|t h IH]; [reflexivity|].
  cbn [forallb List.map]. intros H. apply andb_true_iff in H.
  destruct H as [Ht Hh]. apply andb_true_iff. split; [|apply IH; exact Hh].
  unfold turnLine. rewrite !noNewline_app, Ht.
  destruct (role t); reflexivity.
Qed.

Lemma all_single_cons l ls :
  forallb noNewline (l :: ls) = noNewline l && forallb noNewline ls.
Proof. reflexivity. Qed.

Lemma all_single_nil : forallb noNewline [] = true.
Proof. reflexivity. Qed.

Ltac nonl :=
  rewrite ?all_single_cons, ?all_single_nil;
  repeat first [ rewrite noNewline_app | rewrite (noNewline_cons dquote) ];
  repeat first [ assumption | reflexivity | apply andb_true_iff; split ].

Lemma optionalLines_single p :
  match processing_fee_pct p with
  | Some fee => noNewline (numToString fee)
  | None => true
  end = true ->
  singleLineOption (disbursal_speed p) = true ->
  singleLineOption (docs_level p) = true ->
  singleLineOption (summary p) = true ->
  forallb noNewline (optionalLines p) = true.
Proof.
  unfold optionalLines, processingFeeLine, prepaymentLine, disbursalLine,
    docsLine, summaryLine, optionalTextLine, singleLineOption.
  intros Hf Hd Hl Hs. rewrite !all_single_cons, all_single_nil.
  repeat (apply andb_true_iff; split); try reflexivity.
  - destruct (processing_fee_pct p) as [fee|]; [|reflexivity].
    destruct (numTruthy fee); nonl.
  - destruct (prepayment_allowed p) as [[|]|]; reflexivity.
  - destruct (disbursal_speed p) as [[|c s]|]; nonl.
  - destruct (docs_level p) as [[|c s]|]; nonl.
  - destruct (summary p) as [[|c s]|]; nonl.
Qed.

Lemma faqBlockLines_single p :
  match faq p with
  | Some fs => forallb (fun f => noNewline (q f) && noNewline (a f)) fs
  | None => true
  end = true ->
  forallb noNewline (faqBlockLines p) = true.
Proof.
  unfold faqBlockLines. destruct (faq p) as [[|f fs]|]; intros H;
    try reflexivity.
  apply (entryLines_single (f :: fs) 0 H).
Qed.

Lemma historyLines_single h :
  forallb (fun t => noNewline (content t)) h = true ->
  forallb noNewline (historyLines h) = true.
Proof.
  intros H. unfold historyLines. destruct h as [|t h]; [reflexivity|].
  change (forallb noNewline (List.map turnLine (t :: h) ++ [ [] ]) = true).
  rewrite forallb_app. apply andb_true_iff. split; [|reflexivity].
  apply turnLines_single. exact H.
Qed.

(** When no interpolated text has a newline, every filled-in source line
    of the template is one line. *)
Lemma promptLines_single p question h :
  singleLineFields p question h = true ->
  forallb noNewline (promptLines p question h) = true.
Proof.
  unfold singleLineFields. intros H.
  repeat match type of H with
  | _ && _ = true =>
      let H2 := fresh "S" in
      apply andb_true_iff in H; destruct H as [H H2]
  end.
  unfold promptLines.
  repeat (rewrite forallb_app; apply andb_true_iff; split).
  - unfold introLine, rule2. nonl.
  - change (forallb noNewline (requiredLines p ++ optionalLines p ++ [ [] ]
                                 ++ faqBlockLines p ++ [ [] ]) = true).
    repeat (rewrite forallb_app; apply andb_true_iff; split); try reflexivity.
    + unfold requiredLines. nonl. destruct (type p); reflexivity.
    + apply optionalLines_single; assumption.
    + apply faqBlockLines_single; assumption.
  - reflexivity.
  - apply historyLines_single; assumption.
  - unfold questionLine. nonl.
Qed.

End LineFacts.

(** ** Tests on lines *)

Lemma startsWith_nil_r L e : startsWith (L ++ [e]) [] = false.
Proof. destruct L; reflexivity. Qed.

Lemma startsWith_snoc L e c : e <> c -> forall l,
  startsWith (L ++ [e]) (l ++ [c]) = startsWith (L ++ [e]) l.
Proof.
  intros Hne. induction L as [|x L IH]; intros l.
  - destruct l as [|y l]; simpl.
    + apply N.eqb_neq in Hne. rewrite Hne. reflexivity.
    + reflexivity.
  - destruct l as [|y l].
    + cbn [app startsWith]. rewrite startsWith_nil_r. apply andb_false_r.
    + cbn [app startsWith]. rewrite IH. reflexivity.
Qed.

Lemma labelled_LineTest label L e :
  lit label = L ++ [e] -> isWhiteSpace e = false -> LineTest (labelled label).
Proof.
  intros E He. unfold labelled. rewrite E. split.
  - apply startsWith_nil_r.
  - intros l c Hc. apply startsWith_snoc. intros ->. congruence.
Qed.



Section FilterFacts.
Context {N_ : JsNumber}.

Lemma filter_none (P : jsstring -> bool) ls :
  (forall l, In l ls -> P l = false) -> filter P ls = [].
Proof.
  induction ls as [|l ls IH]; intros H; [reflexivity|].
  simpl. rewrite (H l (or_introl eq_refl)). apply IH.
  intros l' Hl. apply H. right. exact Hl.
Qed.

Lemma filter_entryLines (P : jsstring -> bool) fs : forall i,
  P [] = false ->
  filter P (entryLines i fs)
  = List.concat (mapi (fun i f => filter P [questionText i f; answerText i f]) i fs).
Proof.
  induction fs as [|f fs IH]; intros i H0.
  - simpl. rewrite H0. reflexivity.
  - change (entryLines i (f :: fs))
      with ([ []; questionText i f; answerText i f ] ++ entryLines (S i) fs).
    rewrite filter_app. cbn [filter mapi List.concat]. rewrite H0.
    f_equal. apply IH. exact H0.
Qed.



Lemma filter_faqBlockLines_none (P : jsstring -> bool) p :
  P [] = false -> P (lit "FREQUENTLY ASKED QUESTIONS:") = false ->
  (forall i f, P (questionText i f) = false) ->
  (forall i f, P (answerText i f) = false) ->
  filter P (faqBlockLines p) = [].
Proof.
  intros H0 Hh Hq Ha. unfold faqBlockLines.
  destruct (faq p) as [[|f fs]|]; try (simpl; rewrite H0; reflexivity).
  rewrite filter_app. cbn [filter]. rewrite H0, Hh.
  rewrite (filter_entryLines P (f :: fs) 0 H0).
  generalize 0%nat. generalize (f :: fs). intros l. induction l as [|x l IH];
    intros i; [reflexivity|].
  cbn [mapi List.concat filter]. rewrite Hq, Ha. apply IH.
Qed.



Lemma turnLine_not_labelled label c L t :
  lit label = c :: L -> (c =? 85) = false -> (c =? 65) = false ->
  labelled label (turnLine t) = false.
Proof.
  intros E Hu Ha. unfold labelled, turnLine. rewrite E.
  destruct (role t); cbn; [rewrite Hu|rewrite Ha]; reflexivity.
Qed.


End FilterFacts.

(** ** Optional lines and the FAQ block *)

Section OptionalFacts.
Context {N_ : JsNumber}.








End OptionalFacts.



(** ** The FAQ block *)

Section FaqFacts.
Context {N_ : JsNumber}.

Lemma optionalLines_start p l :
  In l (optionalLines p) -> l = [] \/ exists s, l = 45 :: s.
Proof.
  unfold optionalLines, processingFeeLine, prepaymentLine, disbursalLine,
    docsLine, summaryLine, optionalTextLine.
  intros [<-|[<-|[<-|[<-|[<-|[]]]]]].
  - destruct (processing_fee_pct p) as [fee|]; [|left; reflexivity].
    destruct (numTruthy fee); [right; eexists; reflexivity|left; reflexivity].
  - destruct (prepayment_allowed p); [right; eexists; reflexivity|left; reflexivity].
  - destruct (disbursal_speed p) as [[|c s]|];
      [left; reflexivity|right; eexists; reflexivity|left; reflexivity].
  - destruct (docs_level p) as [[|c s]|];
      [left; reflexivity|right; eexists; reflexivity|left; reflexivity].
  - destruct (summary p) as [[|c s]|];
      [left; reflexivity|right; eexists; reflexivity|left; reflexivity].
Qed.

Lemma filter_optionalLines_none (P : jsstring -> bool) p :
  P [] = false -> (forall s, P (45 :: s) = false) ->
  filter P (optionalLines p) = [].
Proof.
  intros H0 Hd. apply filter_none. intros l Hl.
  destruct (optionalLines_start p l Hl) as [->|(s & ->)]; [exact H0|apply Hd].
Qed.

















End FaqFacts.



(** ** The handler: rejections and persistence *)

Section HandlerPaths.
Context {N_ : JsNumber}.

Ltac run_handler :=
  unfold POST, handle, bind, tryCatch, liftResult, parseBody, save,
    consoleError, newDate, ret, throw.

(** X1: a body that fails the schema is answered with 400 and the validation
    message, before the session is even looked at; nothing is saved. *)
Theorem POST_invalid_body (c : Collaborators) (body : Json) (st : State) :
  requestJson c = Ok body ->
  AIAskSchema_parse (isUuid c) body = None ->
  POST c st
  = (jsonResponse 400 false None (Some (lit "Invalid request format"))
       (Some (zodMessage c body)),
     {| saved := saved st;
        console := console st
                     ++ [lit "Error in POST /api/ai/ask: " ++ zodMessage c body];
        fetched := fetched st; clock := clock st |}).
Proof.
  intros Hb Hp. run_handler. rewrite Hb. simpl. rewrite Hp. reflexivity.
Qed.

(** X2: without a signed-in user (no session, or an empty user id) a valid
    request is answered with 401; the product is not read and the state
    does not change. *)
Theorem POST_unauthorized (c : Collaborators) (body : Json)
  (request : AIAskRequest.t) (session : option jsstring) (st : State) :
  requestJson c = Ok body ->
  AIAskSchema_parse (isUuid c) body = Some request ->
  getServerSession c = Ok session ->
  session = None \/ session = Some [] ->
  POST c st
  = (jsonResponse 401 false None (Some (lit "Unauthorized")) None, st).
Proof.
  intros Hb Hp Hs Hn. run_handler. rewrite Hb. simpl. rewrite Hp. simpl.
  rewrite Hs. simpl. destruct Hn as [-> | ->]; reflexivity.
Qed.

(** X3: an unknown product id is answered with 404 and leaves the state as it
    was. *)
Theorem POST_product_not_found (c : Collaborators) (body : Json)
  (request : AIAskRequest.t) (u : N) (serId : jsstring) (st : State) :
  requestJson c = Ok body ->
  AIAskSchema_parse (isUuid c) body = Some request ->
  getServerSession c = Ok (Some (u :: serId)) ->
  getProductById c (AIAskRequest.productId request) = Ok None ->
  POST c st
  = (jsonResponse 404 false None (Some (lit "Product not found")) None, st).
Proof.
  intros Hb Hp Hs Hg. run_handler. rewrite Hb. simpl. rewrite Hp. simpl.
  rewrite Hs. simpl. rewrite Hg. reflexivity.
Qed.

(** X4: when reading the body, the session or the product throws anything but
    a ZodError, the answer is the generic 500 payload: the exception's
    message goes to the log only, and nothing is saved. *)
Theorem POST_collaborator_failure (c : Collaborators) (e : Exn) (st : State) :
  requestJson c = Throw e
  \/ (exists body request,
        requestJson c = Ok body
        /\ AIAskSchema_parse (isUuid c) body = Some request
        /\ (getServerSession c = Throw e
            \/ exists u serId,
                 getServerSession c = Ok (Some (u :: serId))
                 /\ getProductById c (AIAskRequest.productId request) = Throw e)) ->
  isError e && eqs (exnName e) (lit "ZodError") = false ->
  POST c st
  = (jsonResponse 500 false None (Some (lit "Failed to process AI request")) None,
     {| saved := saved st;
        console := console st ++ [lit "Error in POST /api/ai/ask: " ++ exnMessage e];
        fetched := fetched st; clock := clock st |}).
Proof.
  intros H Hz. run_handler.
  destruct H as [Hb|(body & request & Hb & Hp & [Hs|(u & serId & Hs & Hg)])];
    rewrite Hb; simpl.
  - rewrite Hz. reflexivity.
  - rewrite Hp. simpl. rewrite Hs. simpl. rewrite Hz. reflexivity.
  - rewrite Hp. simpl. rewrite Hs. simpl. rewrite Hg. simpl. rewrite Hz.
    reflexivity.
Qed.

(** X5: when the reply passes the gate and both saves succeed, the handler
    has stored the user turn and then the assistant turn, stamped with two
    successive readings of the clock, and has logged nothing. *)
Theorem POST_saves_both_turns (c : Collaborators) (request : AIAskRequest.t)
  (product : Product) (u : N) (serId : jsstring) (rows1 rows2 : list ChatMessage)
  (st : State) :
  ReachesReply c request product ->
  getServerSession c = Ok (Some (u :: serId)) ->
  valid (validateAIResponse
           (simulateAIResponse product (AIAskRequest.message request))) = true ->
  saveChatMessage c
    (turnRow request (u :: serId) user (AIAskRequest.message request) (clock st))
    (saved st) = Ok rows1 ->
  saveChatMessage c
    (turnRow request (u :: serId) assistant
       (simulateAIResponse product (AIAskRequest.message request)) (clock st + 1))
    rows1 = Ok rows2 ->
  snd (POST c st)
  = {| saved := rows2; console := console st; fetched := fetched st;
       clock := clock st + 1 + 1 |}.
Proof.
  intros ((body & Hb & Hp) & _ & Hg) Hs Hv H1 H2. unfold turnRow in *.
  run_handler. rewrite Hb. simpl. rewrite Hp. simpl. rewrite Hs. simpl.
  rewrite Hg. simpl. rewrite Hv. simpl. rewrite H1. simpl. rewrite H2.
  reflexivity.
Qed.

(** X6: when the gate rejects the reply, the handler returns before the
    persistence step: neither the question nor the fallback is saved; the
    rejection is logged. *)
Theorem POST_rejected_reply_not_saved (c : Collaborators)
  (request : AIAskRequest.t) (product : Product) (st : State) :
  ReachesReply c request product ->
  valid (validateAIResponse
           (simulateAIResponse product (AIAskRequest.message request))) = false ->
  snd (POST c st)
  = {| saved := saved st;
       console := console st
                    ++ [lit "AI response validation failed: " ++ suspiciousReason];
       fetched := fetched st; clock := clock st |}.
Proof.
  intros ((body & Hb & Hp) & (u & serId & Hs) & Hg) Hv.
  assert (Hr : reason (validateAIResponse
                         (simulateAIResponse product
                            (AIAskRequest.message request))) = Some suspiciousReason).
  { unfold validateAIResponse in *.
    destruct (firstSuspicious_cases suspiciousPatterns
                (simulateAIResponse product (AIAskRequest.message request)))
      as [[_ E]|[_ E]]; rewrite E in *; [reflexivity|discriminate]. }
  run_handler. rewrite Hb. simpl. rewrite Hp. simpl. rewrite Hs. simpl.
  rewrite Hg. simpl. rewrite Hv. simpl. rewrite Hr. reflexivity.
Qed.

(** X7: a failed save is not undone and not retried: when saving the user
    turn throws, nothing is stored and the assistant turn is not attempted;
    when saving the assistant turn throws, the user turn stays stored. In
    both cases the failure is logged. *)
Theorem POST_save_failure (c : Collaborators) (request : AIAskRequest.t)
  (product : Product) (u : N) (serId : jsstring) (e : Exn) (st : State) :
  ReachesReply c request product ->
  getServerSession c = Ok (Some (u :: serId)) ->
  valid (validateAIResponse
           (simulateAIResponse product (AIAskRequest.message request))) = true ->
  (saveChatMessage c
     (turnRow request (u :: serId) user (AIAskRequest.message request) (clock st))
     (saved st) = Throw e ->
   snd (POST c st)
   = {| saved := saved st;
        console := console st
                     ++ [lit "Failed to save chat messages: " ++ exnMessage e];
        fetched := fetched st; clock := clock st + 1 |})
  /\ (forall rows1,
        saveChatMessage c
          (turnRow request (u :: serId) user (AIAskRequest.message request)
             (clock st))
          (saved st) = Ok rows1 ->
        saveChatMessage c
          (turnRow request (u :: serId) assistant
             (simulateAIResponse product (AIAskRequest.message request))
             (clock st + 1))
          rows1 = Throw e ->
        snd (POST c st)
        = {| saved := rows1;
             console := console st
                          ++ [lit "Failed to save chat messages: " ++ exnMessage e];
             fetched := fetched st; clock := clock st + 1 + 1 |}).
Proof.
  intros ((body & Hb & Hp) & _ & Hg) Hs Hv. unfold turnRow. split.
  - intros H1. run_handler. rewrite Hb. simpl. rewrite Hp. simpl. rewrite Hs.
    simpl. rewrite Hg. simpl. rewrite Hv. simpl. rewrite H1. reflexivity.
  - intros rows1 H1 H2. run_handler. rewrite Hb. simpl. rewrite Hp. simpl.
    rewrite Hs. simpl. rewrite Hg. simpl. rewrite Hv. simpl. rewrite H1. simpl.
    rewrite H2. reflexivity.
Qed.

End HandlerPaths.

Lemma POST_invalid_body_witness :
  fst (POST (Sample4.desk (Ok Sample4.emptyMessage) (Ok None)
               (Ok (Some Sample.quickLoan)) Sample4.appending)
         Sample.emptyState)
  = jsonResponse 400 false None (Some (lit "Invalid request format"))
      (Some (lit "invalid")).
Proof.
  rewrite (POST_invalid_body
             (Sample4.desk (Ok Sample4.emptyMessage) (Ok None)
                (Ok (Some Sample.quickLoan)) Sample4.appending)
             Sample4.emptyMessage Sample.emptyState eq_refl eq_refl).
  reflexivity.
Defined.

Lemma POST_unauthorized_witness :
  POST (Sample4.desk (Ok Sample.askRate) (Ok (Some []))
          (Ok (Some Sample.quickLoan)) Sample4.appending) Sample.emptyState
  = (jsonResponse 401 false None (Some (lit "Unauthorized")) None,
     Sample.emptyState).
Proof.
  apply (POST_unauthorized _ Sample.askRate Sample4.rateRequest (Some [])).
  - reflexivity.
  - reflexivity.
  - reflexivity.
  - right. reflexivity.
Defined.

Lemma POST_product_not_found_witness :
  POST (Sample4.desk (Ok Sample.askRate) Sample4.signedIn (Ok None)
          Sample4.appending) Sample.emptyState
  = (jsonResponse 404 false None (Some (lit "Product not found")) None,
     Sample.emptyState).
Proof.
  apply (POST_product_not_found _ Sample.askRate Sample4.rateRequest
           117 (lit "ser-1")); reflexivity.
Defined.

Lemma POST_collaborator_failure_witness :
  fst (POST (Sample4.desk (Ok Sample.askRate) Sample4.signedIn
               (Throw Sample.dbDown) Sample4.appending) Sample.emptyState)
  = jsonResponse 500 false None (Some (lit "Failed to process AI request")) None.
Proof.
  rewrite (POST_collaborator_failure
             (Sample4.desk (Ok Sample.askRate) Sample4.signedIn
                (Throw Sample.dbDown) Sample4.appending)
             Sample.dbDown Sample.emptyState).
  - reflexivity.
  - right. exists Sample.askRate, Sample4.rateRequest.
    split; [reflexivity|]. split; [reflexivity|].
    right. exists 117, (lit "ser-1"). split; reflexivity.
  - reflexivity.
Defined.

Lemma POST_saves_both_turns_witness :
  saved (snd (POST (Sample4.desk (Ok Sample.askRate) Sample4.signedIn
                      (Ok (Some Sample.quickLoan)) Sample4.appending)
                Sample.emptyState))
  = [ turnRow Sample4.rateRequest (lit "user-1") user
        (lit "What's the interest rate?") 0;
      turnRow Sample4.rateRequest (lit "user-1") assistant Sample4.rateReply 1 ].
Proof.
  rewrite (POST_saves_both_turns
             (Sample4.desk (Ok Sample.askRate) Sample4.signedIn
                (Ok (Some Sample.quickLoan)) Sample4.appending)
             Sample4.rateRequest Sample.quickLoan 117 (lit "ser-1")
             [ turnRow Sample4.rateRequest (lit "user-1") user
                 (lit "What's the interest rate?") 0 ]
             [ turnRow Sample4.rateRequest (lit "user-1") user
                 (lit "What's the interest rate?") 0;
               turnRow Sample4.rateRequest (lit "user-1") assistant
                 Sample4.rateReply 1 ]
             Sample.emptyState).
  - reflexivity.
  - split; [|split].
    + exists Sample.askRate. split; reflexivity.
    + exists 117, (lit "ser-1"). reflexivity.
    + reflexivity.
  - reflexivity.
  - reflexivity.
  - reflexivity.
  - reflexivity.
Defined.

Lemma POST_rejected_reply_not_saved_witness :
  saved (snd (POST (Sample4.desk (Ok Sample.askRate) Sample4.signedIn
                      (Ok (Some Sample.boastfulLoan)) Sample4.appending)
                Sample.emptyState))
  = [].
Proof.
  rewrite (POST_rejected_reply_not_saved
             (Sample4.desk (Ok Sample.askRate) Sample4.signedIn
                (Ok (Some Sample.boastfulLoan)) Sample4.appending)
             Sample4.rateRequest Sample.boastfulLoan Sample.emptyState).
  - reflexivity.
  - split; [|split].
    + exists Sample.askRate. split; reflexivity.
    + exists 117, (lit "ser-1"). reflexivity.
    + reflexivity.
  - reflexivity.
Defined.

Lemma POST_save_failure_witness :
  saved (snd (POST (Sample4.desk (Ok Sample.askRate) Sample4.signedIn
                      (Ok (Some Sample.quickLoan)) Sample4.failingOnAssistant)
                Sample.emptyState))
  = [ turnRow Sample4.rateRequest (lit "user-1") user
        (lit "What's the interest rate?") 0 ].
Proof.
  rewrite (proj2 (POST_save_failure
                    (Sample4.desk (Ok Sample.askRate) Sample4.signedIn
                       (Ok (Some Sample.quickLoan)) Sample4.failingOnAssistant)
                    Sample4.rateRequest Sample.quickLoan 117 (lit "ser-1")
                    Sample.dbDown Sample.emptyState
                    (conj (ex_intro _ Sample.askRate (conj eq_refl eq_refl))
                       (conj (ex_intro _ 117 (ex_intro _ (lit "ser-1") eq_refl))
                          eq_refl))
                    eq_refl eq_refl)
             [ turnRow Sample4.rateRequest (lit "user-1") user
                 (lit "What's the interest rate?") 0 ]
             eq_refl eq_refl).
  reflexivity.
Defined.

(** ** More on the response gate *)

Module GateFacts.
Import Regex RegexFacts.

Lemma isWordAt_canon prev prev' :
  option_map canonicalize prev = option_map canonicalize prev' ->
  isWordAt prev = isWordAt prev'.
Proof.
  destruct prev as [c|], prev' as [d|]; simpl; try discriminate.
  - intros E. injection E as E. apply canonicalize_word. exact E.
  - reflexivity.
Qed.

Lemma hd_canon s s' :
  sameUpToCase s s' ->
  option_map canonicalize (hd_error s) = option_map canonicalize (hd_error s').
Proof.
  unfold sameUpToCase. destruct s, s'; simpl; try discriminate.
  - reflexivity.
  - intros E. injection E as E _. rewrite E. reflexivity.
Qed.

Lemma matchHere_canon pat : forall prev prev' s s',
  sameUpToCase s s' ->
  option_map canonicalize prev = option_map canonicalize prev' ->
  matchHere pat prev s = matchHere pat prev' s'.
Proof.
  induction pat as [|[|c] pat IH]; intros prev prev' s s' Hs Hp.
  - reflexivity.
  - cbn [matchHere].
    rewrite (isWordAt_canon prev prev' Hp).
    rewrite (isWordAt_canon _ _ (hd_canon s s' Hs)).
    rewrite (IH prev prev' s s' Hs Hp). reflexivity.
  - unfold sameUpToCase in Hs. destruct s as [|d s], s' as [|d' s'];
      try discriminate; [reflexivity|].
    simpl in Hs. injection Hs as Hd Hs. cbn [matchHere]. unfold sameChar.
    rewrite Hd. rewrite (IH (Some d) (Some d') s s' Hs); [reflexivity|].
    simpl. rewrite Hd. reflexivity.
Qed.

Lemma searchFrom_canon pat s : forall s' prev prev',
  sameUpToCase s s' ->
  option_map canonicalize prev = option_map canonicalize prev' ->
  searchFrom pat prev s = searchFrom pat prev' s'.
Proof.
  induction s as [|d s IH]; intros s' prev prev' Hs Hp.
  - destruct s'; [|discriminate]. simpl.
    rewrite (matchHere_canon pat prev prev' [] [] Hs Hp). reflexivity.
  - destruct s' as [|d' s']; [discriminate|]. cbn [searchFrom].
    rewrite (matchHere_canon pat prev prev' (d :: s) (d' :: s') Hs Hp).
    unfold sameUpToCase in Hs. simpl in Hs. injection Hs as Hd Hs.
    rewrite (IH s' (Some d) (Some d') Hs); [reflexivity|].
    simpl. rewrite Hd. reflexivity.
Qed.

Lemma firstSuspicious_canon pats r r' :
  sameUpToCase r r' -> firstSuspicious pats r = firstSuspicious pats r'.
Proof.
  intros H. induction pats as [|p pats IH]; [reflexivity|].
  simpl. unfold test. rewrite (searchFrom_canon p r r' None None H eq_refl).
  rewrite IH. reflexivity.
Qed.

Lemma lastOr_cons_any c p x y : lastOr x (c :: p) = lastOr y (c :: p).
Proof. reflexivity. Qed.

Lemma lastOr_middle pre a p x : lastOr x (pre ++ a :: p) = lastOr (Some a) p.
Proof. unfold lastOr. rewrite fold_left_app. reflexivity. Qed.

Lemma ContainsAsWords_padded phrase r pre a b post :
  ContainsAsWords phrase r ->
  isWordChar a = false -> isWordChar b = false ->
  ContainsAsWords phrase (pre ++ a :: r ++ b :: post).
Proof.
  intros (p & m & q & -> & Hs & Hp & Hq) Ha Hb.
  exists (pre ++ a :: p), m, (q ++ b :: post). repeat split.
  - rewrite <- !app_assoc. cbn [app]. rewrite <- ?app_assoc. reflexivity.
  - exact Hs.
  - rewrite lastOr_middle. destruct p as [|c p]; [exact Ha|].
    rewrite (lastOr_cons_any c p (Some a) None). exact Hp.
  - destruct q as [|c q]; [exact Hb|exact Hq].
Qed.

End GateFacts.

(** X8: the verdict does not depend on the case of the letters a-z: two
    texts that differ only in that get the same verdict. *)
Theorem validateAIResponse_ignores_case (r r' : jsstring) :
  sameUpToCase r r' -> validateAIResponse r = validateAIResponse r'.
Proof. apply GateFacts.firstSuspicious_canon. Qed.

Lemma validateAIResponse_ignores_case_witness :
  validateAIResponse (lit "No Credit CHECK needed")
  = validateAIResponse (lit "no credit check NEEDED").
Proof.
  apply (validateAIResponse_ignores_case (lit "No Credit CHECK needed")
           (lit "no credit check NEEDED")).
  reflexivity.
Defined.

(** X9: a rejected text stays rejected inside any longer text in which it is
    set off by characters that are not letters, digits or underscores. *)
Theorem validateAIResponse_inside_longer_text (r pre post : jsstring) (a b : N) :
  validateAIResponse r = invalid ->
  Regex.isWordChar a = false -> Regex.isWordChar b = false ->
  validateAIResponse (pre ++ a :: r ++ b :: post) = invalid.
Proof.
  intros Hr Ha Hb. unfold validateAIResponse in *.
  destruct (firstSuspicious_cases suspiciousPatterns r) as [[He _]|[_ E]];
    [|rewrite E in Hr; discriminate].
  apply suspicious_iff in He. destruct He as (phrase & Hin & Hc).
  destruct (firstSuspicious_cases suspiciousPatterns (pre ++ a :: r ++ b :: post))
    as [[_ E]|[He' _]]; [exact E|].
  assert (Ht : existsb (fun p => Regex.test p (pre ++ a :: r ++ b :: post))
                 suspiciousPatterns = true).
  { apply suspicious_iff. exists phrase. split; [exact Hin|].
    apply GateFacts.ContainsAsWords_padded; assumption. }
  rewrite Ht in He'. discriminate.
Qed.

Lemma validateAIResponse_inside_longer_text_witness :
  validateAIResponse (lit "We offer (instant approval) today") = invalid.
Proof.
  apply (validateAIResponse_inside_longer_text (lit "instant approval")
           (lit "We offer ") (lit " today") 40 41); reflexivity.
Defined.

(** ** More on the LLM transport *)

Lemma nonEmptyString_some v t : nonEmptyString v = Some t -> t <> [].
Proof.
  destruct v as [[| | | [|c s] | |]|]; simpl; try discriminate.
  intros E. injection E as <-. discriminate.
Qed.

(** X10: whenever the call returns a text, the text is not empty, and exactly
    one request went out, to the provider chosen by the credentials, and
    was answered with a success status and a JSON body. *)
Theorem callLLMAPI_success (env : ProcessEnv) (net : Network)
  (prompt text : jsstring) (st st' : State) :
  callLLMAPI env net prompt st = (Ok text, st') ->
  text <> []
  /\ exists req response,
       net req = Ok response /\ ok response = true /\ json response <> None
       /\ fetched st' = fetched st ++ [req]
       /\ req = (if configured (OPENAI_API_KEY env)
                 then openaiRequest (keyText (OPENAI_API_KEY env)) prompt
                 else geminiRequest (keyText (GEMINI_API_KEY env)) prompt).
Proof.
  unfold callLLMAPI.
  destruct (configured (OPENAI_API_KEY env)) eqn:Ho; simpl.
  - unfold bind, fetch.
    destruct (net (openaiRequest (keyText (OPENAI_API_KEY env)) prompt))
      as [response|e] eqn:Hn; [|discriminate].
    destruct (ok response) eqn:Hk; simpl; [|discriminate].
    unfold responseJson. destruct (json response) as [data|] eqn:Hj; simpl;
      [|discriminate].
    destruct (nonEmptyString _) as [t|] eqn:Ht; simpl; [|discriminate].
    intros E. injection E as <- <-. split.
    + apply (nonEmptyString_some _ _ Ht).
    + exists (openaiRequest (keyText (OPENAI_API_KEY env)) prompt), response.
      repeat split; try assumption. rewrite Hj. discriminate.
  - destruct (configured (GEMINI_API_KEY env)) eqn:Hg; simpl; [|discriminate].
    unfold bind, fetch.
    destruct (net (geminiRequest (keyText (GEMINI_API_KEY env)) prompt))
      as [response|e] eqn:Hn; [|discriminate].
    destruct (ok response) eqn:Hk; simpl; [|discriminate].
    unfold responseJson. destruct (json response) as [data|] eqn:Hj; simpl;
      [|discriminate].
    destruct (nonEmptyString _) as [t|] eqn:Ht; simpl; [|discriminate].
    intros E. injection E as <- <-. split.
    + apply (nonEmptyString_some _ _ Ht).
    + exists (geminiRequest (keyText (GEMINI_API_KEY env)) prompt), response.
      repeat split; try assumption. rewrite Hj. discriminate.
Qed.

(** X11: a response with a non-success status makes the call throw an error
    that names the provider, the status and the body text; the body is
    not parsed. *)
Theorem callLLMAPI_http_error (env : ProcessEnv) (net : Network)
  (prompt : jsstring) (response : FetchResponse) (st : State) :
  ok response = false ->
  (configured (OPENAI_API_KEY env) = true ->
   net (openaiRequest (keyText (OPENAI_API_KEY env)) prompt) = Ok response ->
   fst (callLLMAPI env net prompt st)
   = Throw (newError (lit "OpenAI API error: " ++ decimalNat (status response)
                        ++ lit " " ++ text response)))
  /\ (configured (OPENAI_API_KEY env) = false ->
      configured (GEMINI_API_KEY env) = true ->
      net (geminiRequest (keyText (GEMINI_API_KEY env)) prompt) = Ok response ->
      fst (callLLMAPI env net prompt st)
      = Throw (newError (lit "Gemini API error: " ++ decimalNat (status response)
                           ++ lit " " ++ text response))).
Proof.
  intros Hk. unfold callLLMAPI, bind, fetch. split.
  - intros -> Hn. simpl. rewrite Hn, Hk. reflexivity.
  - intros -> -> Hn. simpl. rewrite Hn, Hk. reflexivity.
Qed.

(** ** The request schema *)

(** X12: an accepted body has a string [productId] that passes the uuid test
    and a string [message] of 1 to 500 code units, and the validated
    request carries exactly these two. *)
Theorem AIAskSchema_parse_accepted (isUuid : jsstring -> bool) (body : Json)
  (request : AIAskRequest.t) :
  AIAskSchema_parse isUuid body = Some request ->
  prop "productId" (Some body) = Some (JString (AIAskRequest.productId request))
  /\ isUuid (AIAskRequest.productId request) = true
  /\ prop "message" (Some body) = Some (JString (AIAskRequest.message request))
  /\ (1 <= List.length (AIAskRequest.message request) <= 500)%nat.
Proof.
  unfold AIAskSchema_parse. destruct body as [| | | | |members]; try discriminate.
  destruct (prop "productId" (Some (JObject members))) as [[| | |pid| |]|];
    try discriminate.
  destruct (prop "message" (Some (JObject members))) as [[| | |msg| |]|];
    try discriminate.
  destruct (isUuid pid) eqn:Hu;
    destruct (1 <=? List.length msg)%nat eqn:H1;
    destruct (List.length msg <=? 500)%nat eqn:H2;
    cbn [andb]; try discriminate.
  apply Nat.leb_le in H1, H2.
  destruct (prop "history" (Some (JObject members))) as [[| | | |items|]|];
    try discriminate.
  - destruct (parseTurns items); [|discriminate].
    intros E. injection E as <-. simpl. repeat split; assumption.
  - intros E. injection E as <-. simpl. repeat split; assumption.
Qed.

Lemma callLLMAPI_success_witness :
  lit "The APR is 8.9%." <> []
  /\ exists req response,
       Sample5.answering 200 (Some Sample5.openaiAnswer) req = Ok response
       /\ ok response = true /\ json response <> None
       /\ fetched (Sample5.afterOneRequest
                     (openaiRequest (lit "sk-test") (lit "hi")))
          = fetched Sample.emptyState ++ [req]
       /\ req = openaiRequest (lit "sk-test") (lit "hi").
Proof.
  apply (callLLMAPI_success Sample.bothKeys
           (Sample5.answering 200 (Some Sample5.openaiAnswer)) (lit "hi")
           (lit "The APR is 8.9%.") Sample.emptyState
           (Sample5.afterOneRequest (openaiRequest (lit "sk-test") (lit "hi")))).
  reflexivity.
Defined.

Lemma callLLMAPI_http_error_witness :
  fst (callLLMAPI Sample.bothKeys (Sample5.answering 429 None) (lit "hi")
         Sample.emptyState)
  = Throw (newError (lit "OpenAI API error: 429 rate limited")).
Proof.
  apply (proj1 (callLLMAPI_http_error Sample.bothKeys
                  (Sample5.answering 429 None) (lit "hi")
                  {| ok := false; status := 429; text := lit "rate limited";
                     json := None |}
                  Sample.emptyState eq_refl)); reflexivity.
Defined.

Lemma AIAskSchema_parse_accepted_witness :
  prop "productId" (Some Sample.askRateWithHistory)
  = Some (JString (id Sample.quickLoan))
  /\ (List.length (id Sample.quickLoan) =? 36)%nat = true
  /\ prop "message" (Some Sample.askRateWithHistory)
     = Some (JString (lit "What's the interest rate?"))
  /\ (1 <= List.length (lit "What's the interest rate?") <= 500)%nat.
Proof.
  apply (AIAskSchema_parse_accepted (fun s => (List.length s =? 36)%nat)
           Sample.askRateWithHistory
           {| AIAskRequest.productId := id Sample.quickLoan;
              AIAskRequest.message := lit "What's the interest rate?";
              AIAskRequest.history :=
                Some [ {| role := user; content := lit "Hello" |} ] |}).
  reflexivity.
Defined.

Section MessageBounds.
Context {N_ : JsNumber}.

Lemma parse_message_length isUuid members m :
  lookup (lit "message") members = Some (JString m) ->
  (List.length m = 0 \/ 500 < List.length m)%nat ->
  AIAskSchema_parse isUuid (JObject members) = None.
Proof.
  intros Hm Hl. unfold AIAskSchema_parse, prop.
  destruct (lookup (lit "productId") members) as [[| | |pid| |]|];
    try reflexivity.
  rewrite Hm.
  assert (E : ((1 <=? List.length m)%nat && (List.length m <=? 500)%nat) = false).
  { destruct Hl as [Hl|Hl].
    - rewrite Hl. reflexivity.
    - apply andb_false_iff. right. apply Nat.leb_gt. exact Hl. }
  rewrite <- andb_assoc, E, andb_false_r. reflexivity.
Qed.

(** X13: a request whose message is empty or longer than 500 code units is
    answered with 400, whoever sends it, and nothing is saved. *)
Theorem POST_message_length (c : Collaborators)
  (members : list (jsstring * Json)) (m : jsstring) (st : State) :
  requestJson c = Ok (JObject members) ->
  lookup (lit "message") members = Some (JString m) ->
  (List.length m = 0 \/ 500 < List.length m)%nat ->
  fst (POST c st)
  = jsonResponse 400 false None (Some (lit "Invalid request format"))
      (Some (zodMessage c (JObject members)))
  /\ saved (snd (POST c st)) = saved st.
Proof.
  intros Hb Hm Hl.
  pose proof (parse_message_length (isUuid c) members m Hm Hl) as Hp.
  unfold POST, handle, bind, liftResult, parseBody, throw.
  rewrite Hb. cbv beta iota. rewrite Hp. split; reflexivity.
Qed.

End MessageBounds.

Lemma POST_message_length_witness :
  fst (POST (Sample4.desk (Ok Sample5.longMessage) Sample4.signedIn
               (Ok (Some Sample.quickLoan)) Sample4.appending)
         Sample.emptyState)
  = jsonResponse 400 false None (Some (lit "Invalid request format"))
      (Some (lit "invalid"))
  /\ saved (snd (POST (Sample4.desk (Ok Sample5.longMessage) Sample4.signedIn
                         (Ok (Some Sample.quickLoan)) Sample4.appending)
                   Sample.emptyState))
     = [].
Proof.
  apply (POST_message_length
           (Sample4.desk (Ok Sample5.longMessage) Sample4.signedIn
              (Ok (Some Sample.quickLoan)) Sample4.appending)
           [ (lit "productId", JString (id Sample.quickLoan));
             (lit "message", JString (repeat 97 501)) ]
           (repeat 97 501) Sample.emptyState).
  - reflexivity.
  - reflexivity.
  - right. vm_compute. apply Nat.leb_le. reflexivity.
Defined.

(** ** More on the prompt *)

Lemma HasLine_among l1 m l2 x :
  In x m -> l1 <> [] -> l2 <> [] -> HasLine x (unlines (l1 ++ m ++ l2)).
Proof.
  intros Hin H1 H2. apply in_split in Hin. destruct Hin as (m1 & m2 & ->).
  rewrite <- app_assoc, app_assoc. cbn [app].
  apply HasLine_mid.
  - destruct l1; [contradiction|discriminate].
  - destruct m2; [exact H2|discriminate].
Qed.

Lemma trimEnd_after_newline x :
  trimEnd (nl :: x) = [] \/ exists y, trimEnd (nl :: x) = nl :: y.
Proof.
  simpl. destruct (trimEnd x) as [|c t].
  - left. reflexivity.
  - right. exists (c :: t). reflexivity.
Qed.

Lemma HasLine_inside before after x t t' :
  t' = before ++ t ++ after -> HasLine x t -> HasLine x t'.
Proof. intros ->. apply HasLine_app. Qed.

Section PromptMore.
Context {N_ : JsNumber}.

(** X14: the header of the product block and the seven lines of the members
    every product has are whole lines of every prompt. *)
Theorem required_lines_present (p : Product) (userMessage : jsstring)
  (history : list Turn) :
  Forall (fun l => HasLine l (buildGroundedPrompt p userMessage history))
    (requiredLines p).
Proof.
  apply Forall_forall. intros l Hl.
  rewrite buildGroundedPrompt_parts, productContext_split.
  assert (H : exists z after,
             [nl; nl] ++ (unlines (requiredLines p) ++ trimEnd (contextTail p))
               ++ [nl; nl] ++ historyContext history ++ [nl; nl]
               ++ questionLine userMessage ++ [nl; nl] ++ closingLine
             = [nl] ++ unlines ([ [] ] ++ requiredLines p ++ [ z ]) ++ after).
  { unfold contextTail.
    destruct (trimEnd_after_newline
                (unlines (optionalLines p ++ [ []; faqBlock p; [] ])))
      as [E|(y & E)]; rewrite E.
    - exists [], (nl :: historyContext history ++ [nl; nl]
                    ++ questionLine userMessage ++ [nl; nl] ++ closingLine).
      rewrite !unlines_app by discriminate.
      cbn [unlines join app]. rewrite <- !app_assoc. cbn [app]. reflexivity.
    - exists y, ([nl; nl] ++ historyContext history ++ [nl; nl]
                   ++ questionLine userMessage ++ [nl; nl] ++ closingLine).
      rewrite !unlines_app by discriminate.
      cbn [unlines join app]. rewrite <- !app_assoc. cbn [app]. reflexivity. }
  destruct H as (z & after & E). rewrite E.
  apply (HasLine_inside ((introLine p ++ [nl; nl]) ++ rulesSection p ++ [nl])
           after l (unlines ([ [] ] ++ requiredLines p ++ [ z ]))).
  - rewrite <- !app_assoc. reflexivity.
  - apply HasLine_among; [exact Hl|discriminate|discriminate].
Qed.

(** X15: the question stands verbatim at the end of the prompt, followed only
    by the closing directive, and the prompt opens with the sentence that
    introduces the assistant, followed by the rules. *)
Theorem prompt_frame (p : Product) (userMessage : jsstring)
  (history : list Turn) :
  exists middle,
    buildGroundedPrompt p userMessage history
    = introLine p ++ [nl; nl] ++ lit "CRITICAL RULES:" ++ middle
      ++ [nl; nl] ++ lit "USER QUESTION: " ++ userMessage
      ++ [nl; nl] ++ closingLine.
Proof.
  rewrite buildGroundedPrompt_parts. unfold rulesSection, questionLine.
  exists (nl :: unlines [ rule1; rule2 p; rule3; rule4; rule5 ]
            ++ [nl; nl] ++ productContext p ++ [nl; nl] ++ historyContext history).
  rewrite (unlines_cons (lit "CRITICAL RULES:")) by discriminate.
  repeat (rewrite <- app_assoc; cbn [app]). reflexivity.
Qed.

Lemma filter_promptLines_all (P : jsstring -> bool) p question h :
  P [] = false ->
  filter P (promptLines p question h)
  = filter P [ introLine p; lit "CRITICAL RULES:"; rule1; rule2 p; rule3;
               rule4; rule5 ]
    ++ filter P (requiredLines p) ++ filter P (optionalLines p)
    ++ filter P (faqBlockLines p) ++ filter P (historyLines h)
    ++ filter P [ questionLine question; closingLine ].
Proof.
  intros H0. unfold promptLines.
  change ([] :: requiredLines p ++ optionalLines p ++ [ [] ]
             ++ faqBlockLines p ++ [ [] ])
    with ([ [] ] ++ requiredLines p ++ optionalLines p ++ [ [] ]
             ++ faqBlockLines p ++ [ [] ]).
  rewrite !filter_app. cbn [filter]. rewrite !H0.
  rewrite !app_nil_r. cbn [app]. rewrite <- !app_assoc. reflexivity.
Qed.

Lemma selected_promptLines (P : jsstring -> bool) p question h :
  LineTest P -> singleLineFields p question h = true ->
  List.map trimEnd (selectLines P (buildGroundedPrompt p question h))
  = List.map trimEnd (filter P (promptLines p question h)).
Proof.
  intros HP Hs.
  rewrite (select_prompt P HP), promptBeforeTrim_lines.
  rewrite (selectLines_unlines P HP).
  rewrite (select_single_lines P _ (promptLines_single p question h Hs)).
  reflexivity.
Qed.

Lemma LineTest_or (P Q : jsstring -> bool) :
  LineTest P -> LineTest Q -> LineTest (fun l => P l || Q l).
Proof.
  intros [P0 Pt] [Q0 Qt]. split.
  - rewrite P0, Q0. reflexivity.
  - intros l c Hc. rewrite (Pt l c Hc), (Qt l c Hc). reflexivity.
Qed.

Lemma turnTest_LineTest : LineTest turnTest.
Proof.
  apply LineTest_or.
  - apply (labelled_LineTest "USER:" (lit "USER") 58); reflexivity.
  - apply (labelled_LineTest "ASSISTANT:" (lit "ASSISTANT") 58); reflexivity.
Qed.

Lemma startsWith_digit c L d s :
  isDigit c = false -> headDigit d = true -> startsWith (c :: L) (d ++ s) = false.
Proof.
  intros Hc Hd. destruct d as [|x d]; [discriminate|]. simpl in *.
  destruct (c =? x) eqn:E; [|reflexivity].
  apply N.eqb_eq in E. subst x. congruence.
Qed.

Lemma answer_not_turn i f : turnTest (answerText i f) = false.
Proof.
  unfold turnTest, labelled, answerText.
  change (startsWith (lit "USER:") (lit "A" ++ ?x)) with false.
  change (startsWith (lit "ASSISTANT:") (lit "A" ++ ?x))
    with (startsWith (lit "SSISTANT:") x).
  cbn [orb]. apply (startsWith_digit 83); [reflexivity|apply decimalNat_head].
Qed.

Lemma filter_all {A : Type} (P : A -> bool) l :
  (forall x, In x l -> P x = true) -> filter P l = l.
Proof.
  induction l as [|x l IH]; intros H; [reflexivity|].
  simpl. rewrite (H x (or_introl eq_refl)). f_equal. apply IH.
  intros y Hy. apply H. right. exact Hy.
Qed.

Lemma turnLine_passes t : turnTest (turnLine t) = true.
Proof. unfold turnLine. destruct (role t); reflexivity. Qed.

Lemma filter_turns h : filter turnTest (historyLines h) = List.map turnLine h.
Proof.
  unfold historyLines. destruct h as [|t h]; [reflexivity|].
  rewrite !filter_app.
  rewrite (filter_all turnTest (List.map turnLine (t :: h))).
  - cbn [filter]. change (turnTest []) with false.
    change (turnTest (lit "PREVIOUS CONVERSATION:")) with false.
    cbn [app]. apply app_nil_r.
  - intros l Hl. apply in_map_iff in Hl. destruct Hl as (t' & <- & _).
    apply turnLine_passes.
Qed.

(** X16: when no interpolated text contains a newline, the lines of the prompt
    that start with [USER:] or [ASSISTANT:] are the prior turns, one line
    each, in the order given, with the role tag in upper case; and the
    prompt has a "PREVIOUS CONVERSATION:" line exactly when there are
    prior turns. *)
Theorem transcript_lines (p : Product) (userMessage : jsstring)
  (history : list Turn) :
  singleLineFields p userMessage history = true ->
  List.map trimEnd
    (selectLines turnTest (buildGroundedPrompt p userMessage history))
  = List.map trimEnd (List.map turnLine history)
  /\ countLabelled "PREVIOUS CONVERSATION:"
       (buildGroundedPrompt p userMessage history)
     = match history with [] => 0%nat | _ :: _ => 1%nat end.
Proof.
  intros Hs. split.
  - rewrite (selected_promptLines turnTest p userMessage history
               turnTest_LineTest Hs).
    rewrite (filter_promptLines_all turnTest) by reflexivity.
    rewrite filter_turns.
    rewrite (filter_optionalLines_none turnTest) by reflexivity.
    rewrite (filter_faqBlockLines_none turnTest);
      [|reflexivity|reflexivity|reflexivity|apply answer_not_turn].
    change (filter turnTest
              [ introLine p; lit "CRITICAL RULES:"; rule1; rule2 p; rule3;
                rule4; rule5 ]) with (@nil (list N)).
    change (filter turnTest (requiredLines p)) with (@nil (list N)).
    change (filter turnTest [ questionLine userMessage; closingLine ])
      with (@nil (list N)).
    cbn [app]. rewrite app_nil_r. reflexivity.
  - unfold countLabelled. rewrite <- (length_map trimEnd).
    rewrite (selected_promptLines (labelled "PREVIOUS CONVERSATION:")
               p userMessage history
               (labelled_LineTest "PREVIOUS CONVERSATION:"
                  (lit "PREVIOUS CONVERSATION") 58 eq_refl eq_refl) Hs).
    rewrite (filter_promptLines_all (labelled "PREVIOUS CONVERSATION:"))
      by reflexivity.
    rewrite (filter_optionalLines_none (labelled "PREVIOUS CONVERSATION:"))
      by reflexivity.
    rewrite (filter_faqBlockLines_none (labelled "PREVIOUS CONVERSATION:"))
      by reflexivity.
    rewrite length_map. unfold historyLines.
    destruct history as [|t h]; [reflexivity|].
    change (filter (labelled "PREVIOUS CONVERSATION:")
              [ introLine p; lit "CRITICAL RULES:"; rule1; rule2 p; rule3;
                rule4; rule5 ]) with (@nil (list N)).
    change (filter (labelled "PREVIOUS CONVERSATION:") (requiredLines p))
      with (@nil (list N)).
    change (filter (labelled "PREVIOUS CONVERSATION:")
              [ questionLine userMessage; closingLine ]) with (@nil (list N)).
    rewrite !filter_app. cbn [app].
    rewrite (filter_none (labelled "PREVIOUS CONVERSATION:")
               (List.map turnLine (t :: h))).
    + reflexivity.
    + intros l Hl. apply in_map_iff in Hl. destruct Hl as (t' & <- & _).
      apply (turnLine_not_labelled "PREVIOUS CONVERSATION:" 80
               (lit "REVIOUS CONVERSATION:") t'); reflexivity.
Qed.

End PromptMore.

Lemma transcript_lines_witness :
  List.map trimEnd
    (selectLines turnTest
       (buildGroundedPrompt Sample.quickLoan Sample2.question Sample2.earlier))
  = [ lit "USER: Hello"; lit "ASSISTANT: Hi, how can I help?" ]
  /\ countLabelled "PREVIOUS CONVERSATION:"
       (buildGroundedPrompt Sample.quickLoan Sample2.question Sample2.earlier)
     = 1%nat.
Proof.
  apply (transcript_lines Sample.quickLoan Sample2.question Sample2.earlier).
  reflexivity.
Defined.

(** ** The simulated reply *)

Lemma lowerUnit_upperAscii c : lowerUnit (upperAscii c) = lowerUnit c.
Proof.
  unfold lowerUnit, upperAscii.
  destruct ((97 <=? c) && (c <=? 122)) eqn:Hl.
  - apply andb_true_iff in Hl. destruct Hl as [H1 H2].
    apply N.leb_le in H1, H2.
    assert (Hu : (65 <=? c - 32) && (c - 32 <=? 90) = true).
    { apply andb_true_iff. split; apply N.leb_le; lia. }
    assert (Hn : (65 <=? c) && (c <=? 90) = false).
    { apply andb_false_iff. right. apply N.leb_gt. lia. }
    assert (Hk : (c =? 8490) = false) by (apply N.eqb_neq; lia).
    assert (Hi : (c =? 304) = false) by (apply N.eqb_neq; lia).
    rewrite Hu, Hn, Hk, Hi. f_equal. lia.
  - reflexivity.
Qed.

Lemma toLowerCase_upper m : toLowerCase (toUpperCaseAscii m) = toLowerCase m.
Proof.
  unfold toLowerCase, toUpperCaseAscii. induction m as [|c m IH]; [reflexivity|].
  cbn [List.map flat_map]. rewrite lowerUnit_upperAscii, IH. reflexivity.
Qed.

Lemma starts_nonempty (c : N) (s x : jsstring) : (c :: s) ++ x <> [].
Proof. discriminate. Qed.

Section SimulationFacts.
Context {N_ : JsNumber}.

(** X17: the keywords are matched without regard to the case of the letters
    a-z: writing the question in capitals does not change the reply. *)
Theorem simulateAIResponse_ignores_case (product : Product)
  (userMessage : jsstring) :
  simulateAIResponse product (toUpperCaseAscii userMessage)
  = simulateAIResponse product userMessage.
Proof.
  unfold simulateAIResponse. rewrite toLowerCase_upper. reflexivity.
Qed.

Lemma simulateAIResponse_nonempty product userMessage :
  simulateAIResponse product userMessage <> [].
Proof.
  unfold simulateAIResponse.
  repeat match goal with
  | |- context [if mentions ?q ?w then _ else _] => destruct (mentions q w)
  end;
  try exact (starts_nonempty _ _ _).
  - destruct (prepayment_allowed product) as [[|]|];
      exact (starts_nonempty _ _ _).
  - destruct (disbursal_speed product) as [speed|];
      [destruct (eqs speed (lit "fast"))|]; exact (starts_nonempty _ _ _).
  - destruct (processing_fee_pct product) as [fee|];
      [destruct (numTruthy fee)|]; exact (starts_nonempty _ _ _).
Qed.

(** X18: every request that reaches the reply is answered with a message that
    is not empty. *)
Theorem POST_reply_nonempty (c : Collaborators) (request : AIAskRequest.t)
  (product : Product) (st : State) :
  ReachesReply c request product ->
  exists m, NextResponse.message (fst (POST c st)) = Some m /\ m <> [].
Proof.
  intros Hr. rewrite (POST_reply c request product st Hr).
  exists (finalReply product (AIAskRequest.message request)).
  split; [reflexivity|]. unfold finalReply.
  destruct (valid _).
  - apply simulateAIResponse_nonempty.
  - discriminate.
Qed.

End SimulationFacts.

Lemma POST_reply_nonempty_witness :
  exists m,
    NextResponse.message
      (fst (POST (Sample4.desk (Ok Sample.askRate) Sample4.signedIn
                    (Ok (Some Sample.quickLoan)) Sample4.failing)
              Sample.emptyState)) = Some m
    /\ m <> [].
Proof.
  apply (POST_reply_nonempty
           (Sample4.desk (Ok Sample.askRate) Sample4.signedIn
              (Ok (Some Sample.quickLoan)) Sample4.failing)
           Sample4.rateRequest Sample.quickLoan Sample.emptyState).
  split; [|split].
  - exists Sample.askRate. split; reflexivity.
  - exists 117, (lit "ser-1"). reflexivity.
  - reflexivity.
Defined.

(** ** The history of a request *)

Lemma parseTurns_rejects items j :
  In j items -> parseTurn j = None -> parseTurns items = None.
Proof.
  induction items as [|x items IH]; intros Hin Hj; [contradiction|].
  simpl. destruct Hin as [->|Hin].
  - rewrite Hj. reflexivity.
  - rewrite (IH Hin Hj). destruct (parseTurn x); reflexivity.
Qed.

Section HistoryFacts.
Context {N_ : JsNumber}.

Lemma parse_history_rejects isUuid members items j :
  lookup (lit "history") members = Some (JArray items) ->
  In j items -> parseTurn j = None ->
  AIAskSchema_parse isUuid (JObject members) = None.
Proof.
  intros Hh Hin Hj. unfold AIAskSchema_parse, prop.
  destruct (lookup (lit "productId") members) as [[| | |pid| |]|];
    try reflexivity.
  destruct (lookup (lit "message") members) as [[| | |msg| |]|];
    try reflexivity.
  destruct (isUuid pid && (1 <=? List.length msg)%nat
            && (List.length msg <=? 500)%nat); [|reflexivity].
  rewrite Hh, (parseTurns_rejects items j Hin Hj). reflexivity.
Qed.

(** X19: the history is validated although the handler never reads it: one
    entry that is not an object with role "user" or "assistant" and a
    string content makes the whole request fail with 400. *)
Theorem POST_history_validated (c : Collaborators)
  (members : list (jsstring * Json)) (items : list Json) (j : Json)
  (st : State) :
  requestJson c = Ok (JObject members) ->
  lookup (lit "history") members = Some (JArray items) ->
  In j items -> parseTurn j = None ->
  fst (POST c st)
  = jsonResponse 400 false None (Some (lit "Invalid request format"))
      (Some (zodMessage c (JObject members))).
Proof.
  intros Hb Hh Hin Hj.
  pose proof (parse_history_rejects (isUuid c) members items j Hh Hin Hj) as Hp.
  unfold POST, handle, bind, liftResult, parseBody, throw.
  rewrite Hb. cbv beta iota. rewrite Hp. reflexivity.
Qed.

End HistoryFacts.

Lemma POST_history_validated_witness :
  fst (POST (Sample4.desk (Ok Sample6.withSystemTurn) Sample4.signedIn
               (Ok (Some Sample.quickLoan)) Sample4.appending)
         Sample.emptyState)
  = jsonResponse 400 false None (Some (lit "Invalid request format"))
      (Some (lit "invalid")).
Proof.
  apply (POST_history_validated
           (Sample4.desk (Ok Sample6.withSystemTurn) Sample4.signedIn
              (Ok (Some Sample.quickLoan)) Sample4.appending)
           [ (lit "productId", JString (id Sample.quickLoan));
             (lit "message", JString (lit "What's the interest rate?"));
             (lit "history",
              JArray [ JObject [ (lit "role", JString (lit "system"));
                                 (lit "content", JString (lit "Be brief")) ] ]) ]
           [ JObject [ (lit "role", JString (lit "system"));
                       (lit "content", JString (lit "Be brief")) ] ]
           (JObject [ (lit "role", JString (lit "system"));
                      (lit "content", JString (lit "Be brief")) ])
           Sample.emptyState).
  - reflexivity.
  - reflexivity.
  - left. reflexivity.
  - reflexivity.
Defined.

(** ** Failures of the LLM transport *)

(** X20: a success response whose JSON body lacks the top-level member the
    provider's answer is read from ([choices] for OpenAI, [candidates] for
    Gemini), or is not an object at all, makes the call throw the
    "unexpected response shape" error of that provider instead of failing
    on a missing property. *)
Theorem callLLMAPI_missing_member (env : ProcessEnv) (net : Network)
  (prompt : jsstring) (response : FetchResponse) (data : Json) (st : State) :
  ok response = true -> json response = Some data ->
  (configured (OPENAI_API_KEY env) = true ->
   net (openaiRequest (keyText (OPENAI_API_KEY env)) prompt) = Ok response ->
   prop "choices" (Some data) = None ->
   fst (callLLMAPI env net prompt st)
   = Throw (newError (lit "OpenAI API returned an unexpected response shape.")))
  /\ (configured (OPENAI_API_KEY env) = false ->
      configured (GEMINI_API_KEY env) = true ->
      net (geminiRequest (keyText (GEMINI_API_KEY env)) prompt) = Ok response ->
      prop "candidates" (Some data) = None ->
      fst (callLLMAPI env net prompt st)
      = Throw (newError (lit "Gemini API returned an unexpected response shape."))).
Proof.
  intros Hk Hj. unfold callLLMAPI, bind, fetch, responseJson. split.
  - intros -> Hn Hc. cbn [negb andb]. cbv beta iota. rewrite Hn, Hk, Hj.
    cbn [negb]. unfold ret. cbv beta iota. rewrite Hc. reflexivity.
  - intros -> -> Hn Hc. cbn [negb andb]. cbv beta iota. rewrite Hn, Hk, Hj.
    cbn [negb]. unfold ret. cbv beta iota. rewrite Hc. reflexivity.
Qed.

Lemma callLLMAPI_missing_member_witness :
  fst (callLLMAPI Sample.bothKeys (Sample5.answering 200 (Some Sample7.errorBody))
         (lit "hi") Sample.emptyState)
  = Throw (newError (lit "OpenAI API returned an unexpected response shape.")).
Proof.
  apply (proj1 (callLLMAPI_missing_member Sample.bothKeys
                  (Sample5.answering 200 (Some Sample7.errorBody)) (lit "hi")
                  {| ok := true; status := 200; text := lit "rate limited";
                     json := Some Sample7.errorBody |}
                  Sample7.errorBody Sample.emptyState eq_refl eq_refl));
    reflexivity.
Defined.

(** X21: when [fetch] itself rejects, the call fails with that very
    exception after its single request: it neither retries nor turns to
    the other provider, even when both credentials are configured. *)
Theorem callLLMAPI_fetch_rejects (env : ProcessEnv) (net : Network)
  (prompt : jsstring) (e : Exn) (st : State) :
  configured (OPENAI_API_KEY env) = true ->
  net (openaiRequest (keyText (OPENAI_API_KEY env)) prompt) = Throw e ->
  callLLMAPI env net prompt st
  = (Throw e,
     {| saved := saved st; console := console st;
        fetched := fetched st
                     ++ [openaiRequest (keyText (OPENAI_API_KEY env)) prompt];
        clock := clock st |}).
Proof.
  intros Ho Hn. unfold callLLMAPI, bind, fetch. rewrite Ho. simpl.
  rewrite Hn. reflexivity.
Qed.

Lemma callLLMAPI_fetch_rejects_witness :
  callLLMAPI Sample.bothKeys Sample.offline (lit "hi") Sample.emptyState
  = (Throw (newError (lit "fetch failed")),
     Sample5.afterOneRequest (openaiRequest (lit "sk-test") (lit "hi"))).
Proof.
  apply (callLLMAPI_fetch_rejects Sample.bothKeys Sample.offline (lit "hi")
           (newError (lit "fetch failed")) Sample.emptyState); reflexivity.
Defined.

(** ** The prompt builder on the object store *)

Section StoreFacts.
Context {N_ : JsNumber}.

Lemma Extends_refl w : Extends w w.
Proof.
  split; [|split]; try reflexivity. exists []. symmetry. apply app_nil_r.
Qed.

Lemma Extends_trans w1 w2 w3 : Extends w1 w2 -> Extends w2 w3 -> Extends w1 w3.
Proof.
  intros ((m1 & E1) & A1 & V1) ((m2 & E2) & A2 & V2). split; [|split].
  - exists (m1 ++ m2). rewrite E2, E1. symmetry. apply app_assoc.
  - congruence.
  - congruence.
Qed.

Lemma Extends_withObject w o : Extends w (withObject w o).
Proof. split; [|split]; try reflexivity. exists [o]. reflexivity. Qed.

(** An object of the smaller world is found unchanged in the larger. *)
Lemma objectAt_Extends w w' l o :
  Extends w w' -> objectAt w l = Some o -> objectAt w' l = Some o.
Proof.
  intros ((more & E) & _ & _) H. unfold objectAt in *. rewrite E.
  rewrite nth_error_app1; [exact H|].
  apply nth_error_Some. rewrite H. discriminate.
Qed.

Lemma objectAt_new w o :
  objectAt (withObject w o) (List.length (objects w)) = Some o.
Proof.
  unfold objectAt, withObject. simpl.
  rewrite nth_error_app2 by apply Nat.le_refl.
  rewrite Nat.sub_diag. reflexivity.
Qed.

(** [items.map(f).join(sep)]: one array is allocated, nothing else
    changes. *)
Lemma map_join_runs {A : Type} sep items (k : jsstring -> H A) w :
  bindH (allocate (StringsObj items))
    (fun mapped => bindH (joinAt sep mapped) k) w
  = k (join sep items) (withObject w (StringsObj items)).
Proof.
  unfold bindH, allocate, joinAt. rewrite objectAt_new. reflexivity.
Qed.

Lemma faqBlockOf_entries p f fs :
  faq p = Some (f :: fs) -> faqBlockOf (join [] (mapi faqEntry 0 (f :: fs))) = faqBlock p.
Proof. intros E. unfold faqBlock. rewrite E. reflexivity. Qed.

Lemma faqBlock_without_entries p :
  match faq p with Some (_ :: _) => False | _ => True end -> faqBlock p = [].
Proof. unfold faqBlock. destruct (faq p) as [[|f fs]|]; intros H; tauto. Qed.

Lemma productContextOf_faqBlock p : productContextOf p (faqBlock p) = productContext p.
Proof. reflexivity. Qed.

Lemma systemPromptOf_build p userMessage history :
  systemPromptOf p userMessage (productContext p) (historyContext history)
  = buildGroundedPrompt p userMessage history.
Proof. reflexivity. Qed.

(** The FAQ part of a call: it returns the text of the FAQ block of the
    product and only adds objects. *)
Lemma faq_part_runs {A : Type} p (k : jsstring -> H A) w :
  exists w1,
    Extends w w1
    /\ bindH (match faq p with
              | Some (f :: fs) =>
                  bindH (allocate (StringsObj (mapi faqEntry 0 (f :: fs))))
                    (fun mapped =>
                  bindH (joinAt [] mapped) (fun entries =>
                  retH (faqBlockOf entries)))
              | _ => retH []
              end) k w
       = k (faqBlock p) w1.
Proof.
  destruct (faq p) as [[|f fs]|] eqn:E.
  - exists w. split; [apply Extends_refl|].
    unfold faqBlock. rewrite E. reflexivity.
  - exists (withObject w (StringsObj (mapi faqEntry 0 (f :: fs)))).
    split; [apply Extends_withObject|].
    rewrite <- (faqBlockOf_entries p f fs E).
    unfold bindH at 1. rewrite map_join_runs. reflexivity.
  - exists w. split; [apply Extends_refl|].
    unfold faqBlock. rewrite E. reflexivity.
Qed.

Lemma history_part_runs {A : Type} turns (k : jsstring -> H A) w :
  exists w1,
    Extends w w1
    /\ bindH (match turns with
              | [] => retH []
              | _ :: _ =>
                  bindH (allocate (StringsObj (List.map turnLine turns)))
                    (fun mapped =>
                  bindH (joinAt [nl] mapped) (fun joined =>
                  retH (historyContextOf joined)))
              end) k w
       = k (historyContext turns) w1.
Proof.
  destruct turns as [|t turns].
  - exists w. split; [apply Extends_refl|reflexivity].
  - exists (withObject w (StringsObj (List.map turnLine (t :: turns)))).
    split; [apply Extends_withObject|].
    unfold bindH at 1. rewrite map_join_runs. reflexivity.
Qed.

(** A call on a store that holds product [p] and history [h] returns the
    prompt of [p], the question and [h], and only adds objects. *)
Lemma buildGroundedPromptAt_runs w product history p h userMessage :
  objectAt w product = Some (ProductObj p) ->
  objectAt w history = Some (TurnsObj h) ->
  exists w',
    buildGroundedPromptAt product userMessage (Some history) w
    = Some (buildGroundedPrompt p userMessage h, w')
    /\ Extends w w'.
Proof.
  intros Hp Hh. unfold buildGroundedPromptAt.
  unfold bindH at 1. unfold retH at 1.
  unfold bindH at 1. unfold readProduct. rewrite Hp.
  destruct (faq_part_runs p
              (fun faqText =>
                 bindH (readTurns history) (fun turns =>
                 bindH (match turns with
                        | [] => retH []
                        | _ :: _ =>
                            bindH (allocate (StringsObj (List.map turnLine turns)))
                              (fun mapped =>
                            bindH (joinAt [nl] mapped) (fun joined =>
                            retH (historyContextOf joined)))
                        end) (fun historyContext =>
                 retH (systemPromptOf p userMessage
                         (productContextOf p faqText) historyContext)))) w)
    as (w1 & E1 & R1).
  rewrite R1. clear R1.
  unfold bindH at 1. unfold readTurns.
  rewrite (objectAt_Extends w w1 history (TurnsObj h) E1 Hh).
  destruct (history_part_runs h
              (fun historyContext =>
                 retH (systemPromptOf p userMessage
                         (productContextOf p (faqBlock p)) historyContext)) w1)
    as (w2 & E2 & R2).
  rewrite R2. exists w2. split.
  - reflexivity.
  - apply (Extends_trans w w1 w2); assumption.
Qed.

(** With the history left out the call allocates its own empty array. *)
Lemma buildGroundedPromptAt_default w product p userMessage :
  objectAt w product = Some (ProductObj p) ->
  exists w',
    buildGroundedPromptAt product userMessage None w
    = Some (buildGroundedPrompt p userMessage [], w')
    /\ Extends w w'.
Proof.
  intros Hp.
  destruct (buildGroundedPromptAt_runs (withObject w (TurnsObj []))
              product (List.length (objects w)) p [] userMessage)
    as (w' & R & E).
  - apply (objectAt_Extends w); [apply Extends_withObject|exact Hp].
  - apply objectAt_new.
  - exists w'. split.
    + exact R.
    + apply (Extends_trans w (withObject w (TurnsObj [])) w');
        [apply Extends_withObject|exact E].
Qed.

(** C6: the prompt depends on the product, the question and the history
    and on nothing else, and building it changes none of them.  On a store
    that holds product [p] and history [h], a call returns a string [s];
    the same call made again right after it returns [s] again; a call in
    any other store that holds the same product and history, at other
    addresses, next to other objects, with another clock, console, database
    and process environment, returns [s] too.  After the call the product
    and the history are where they were, unchanged, and so are the ambient
    state and the environment. *)
Theorem buildGroundedPrompt_repeatable (w v : World)
  (product history product' history' : nat)
  (p : Product) (h : list Turn) (userMessage : jsstring) :
  objectAt w product = Some (ProductObj p) ->
  objectAt w history = Some (TurnsObj h) ->
  objectAt v product' = Some (ProductObj p) ->
  objectAt v history' = Some (TurnsObj h) ->
  exists s w1 w2 v1,
    buildGroundedPromptAt product userMessage (Some history) w = Some (s, w1)
    /\ buildGroundedPromptAt product userMessage (Some history) w1 = Some (s, w2)
    /\ buildGroundedPromptAt product' userMessage (Some history') v = Some (s, v1)
    /\ objectAt w1 product = Some (ProductObj p)
    /\ objectAt w1 history = Some (TurnsObj h)
    /\ ambient w1 = ambient w
    /\ environment w1 = environment w.
Proof.
  intros Hp Hh Hp' Hh'.
  destruct (buildGroundedPromptAt_runs w product history p h userMessage Hp Hh)
    as (w1 & R1 & E1).
  pose proof (objectAt_Extends w w1 product _ E1 Hp) as Hp1.
  pose proof (objectAt_Extends w w1 history _ E1 Hh) as Hh1.
  destruct (buildGroundedPromptAt_runs w1 product history p h userMessage Hp1 Hh1)
    as (w2 & R2 & _).
  destruct (buildGroundedPromptAt_runs v product' history' p h userMessage Hp' Hh')
    as (v1 & R3 & _).
  exists (buildGroundedPrompt p userMessage h), w1, w2, v1.
  destruct E1 as (_ & A1 & V1).
  repeat split; assumption.
Qed.

End StoreFacts.

Lemma buildGroundedPrompt_repeatable_witness :
  exists s w1 w2 v1,
    buildGroundedPromptAt 1%nat Sample2.question (Some 2%nat) Sample8.busy = Some (s, w1)
    /\ buildGroundedPromptAt 1%nat Sample2.question (Some 2%nat) w1 = Some (s, w2)
    /\ buildGroundedPromptAt 2%nat Sample2.question (Some 0%nat) Sample8.later = Some (s, v1)
    /\ objectAt w1 1%nat = Some (ProductObj Sample.quickLoan)
    /\ objectAt w1 2%nat = Some (TurnsObj Sample2.earlier)
    /\ ambient w1 = ambient Sample8.busy
    /\ environment w1 = environment Sample8.busy.
Proof.
  apply (buildGroundedPrompt_repeatable Sample8.busy Sample8.later
           1%nat 2%nat 2%nat 0%nat Sample.quickLoan Sample2.earlier Sample2.question);
    reflexivity.
Defined.
